(** * Typical-days selection as a k-medoids MILP

    A shallow embedding of the two Pyomo model builders of the repository,
    [k_medoids_milp.py] (the plain k-medoids assignment model) and
    [k_medoids_constrained.py] (the same model extended with total-value and
    peak-value preservation), followed by the properties of the models they
    build.

    Integers (day indices, counts, the values of the binary variables) are
    [Z]; the real-valued parameters (distances, daily totals and maxima,
    tolerances) are rationals [Q]; the dictionaries that feed an instance and
    the per-index data of a component are [gmap]s. *)

From Stdlib Require Import ZArith QArith Lqa Lia List String.
From stdpp Require Import base option list gmap strings.

Open Scope Z_scope.

(** ** The fragment of the modelling framework the builders use *)

Module Pyomo.

(** Errors raised while an instance is constructed. [ValueError]: a value
    outside the declared domain of a parameter, or an immutable parameter
    read where it has no value and no default. [KeyError]: data given for
    an index outside the index set of the component. *)
Inductive Exception : Type :=
| ValueError (component : string)
| KeyError (component : string).

Inductive result (A : Type) : Type :=
| Ok (a : A)
| Raise (e : Exception).
Arguments Ok {A} a.
Arguments Raise {A} e.

#[global] Instance result_ret : MRet result := fun A a => Ok a.
#[global] Instance result_bind : MBind result := fun A B k r =>
  match r with
  | Ok a => k a
  | Raise e => Raise e
  end.

Definition is_Ok {A} (r : result A) : bool :=
  match r with Ok _ => true | Raise _ => false end.

(** The value of a computation that is known to succeed; for a closed
    [r] the proof is [eq_refl]. *)
Definition Ok_value {A} (r : result A) : is_Ok r = true -> A :=
  match r with
  | Ok a => fun _ => a
  | Raise e => fun H => match Bool.diff_false_true H with end
  end.

(** The domains named in the sources ([within=...]). *)
Inductive Domain : Type := PositiveIntegers | NonNegativeIntegers | Binary.

Definition within (d : Domain) (v : Z) : bool :=
  match d with
  | PositiveIntegers => 0 <? v
  | NonNegativeIntegers => 0 <=? v
  | Binary => (v =? 0) || (v =? 1)
  end.

(** A scalar [Param(within=d, initialize=default)]: the value of the data,
    else the default, checked against the domain. Every scalar parameter of
    the two models is read by a later component of the same model, so a
    parameter left without any value fails the construction as well. *)
Definition Param_scalar (name : string) (d : Domain)
    (initialize data : option Z) : result Z :=
  match (match data with Some v => Some v | None => initialize end) with
  | Some v => if within d v then Ok v else Raise (ValueError name)
  | None => Raise (ValueError name)
  end.

(** An indexed [Param(index)]: the data may leave indices without a value,
    but it may not name an index outside the index set. *)
Definition Param_indexed `{Countable K} (name : string) (index : list K)
    (data : gmap K Q) : result (gmap K Q) :=
  if bool_decide (map_Forall (fun k _ => k ∈ index) data)
  then Ok data
  else Raise (KeyError name).

(** [P[k]] on an immutable parameter, as a rule reads it while the
    component is constructed. *)
Definition Param_read `{Countable K} (name : string) (P : gmap K Q) (k : K)
    : result unit :=
  match P !! k with
  | Some _ => Ok tt
  | None => Raise (ValueError name)
  end.

(** A rule run once per index of a component, in order. *)
Fixpoint for_each {K} (index : list K) (rule : K -> result unit)
    : result unit :=
  match index with
  | [] => Ok tt
  | k :: ks => _ ← rule k; for_each ks rule
  end.

#[global] Instance Q_inhabited : Inhabited Q := populate 0%Q.

(** [RangeSet(n)] is 1, ..., n. *)
Definition RangeSet (n : Z) : list Z := seqZ 1 n.

(** Python's [sum(f(a) for a in l)], on integers and on reals. *)
Fixpoint sumZ {A} (f : A -> Z) (l : list A) : Z :=
  match l with
  | [] => 0
  | a :: l' => f a + sumZ f l'
  end.

Fixpoint sumQ {A} (f : A -> Q) (l : list A) : Q :=
  match l with
  | [] => 0%Q
  | a :: l' => (f a + sumQ f l')%Q
  end.

(** One variable of an indexed [Var]: its current value ([None] when it
    was never initialised) and whether it is fixed. *)
Record VarData : Type := { value : option Z; fixed : bool }.

Record Var (K : Type) `{Countable K} : Type :=
  { domain : Domain; data : gmap K VarData }.
Arguments domain {K _ _} _.
Arguments data {K _ _} _.

(** [Var(index, within=d, initialize=v)]. *)
Definition Var_construct `{Countable K} (index : list K) (d : Domain)
    (initialize : option Z) : Var K :=
  {| domain := d;
     data := gset_to_gmap {| value := initialize; fixed := false |}
               (list_to_set index) |}.

(** [x.fix(v)]: every variable of the component gets value [v] and is
    fixed. *)
Definition Var_fix `{Countable K} (v : Z) (x : Var K) : Var K :=
  {| domain := domain x;
     data := (fun _ => {| value := Some v; fixed := true |}) <$> data x |}.

(** The variables of [x] the solver may still choose. *)
Definition is_free `{Countable K} (x : Var K) (k : K) : bool :=
  match data x !! k with
  | Some vd => negb (fixed vd)
  | None => false
  end.

(** A valuation [val] respects the component [x] on [index]: every value
    is in the domain, and a fixed variable keeps its fixed value. *)
Definition Var_ok `{Countable K} (x : Var K) (index : list K)
    (val : K -> Z) : bool :=
  forallb (fun k =>
    within (domain x) (val k) &&
    match data x !! k with
    | Some vd => if fixed vd then bool_decide (value vd = Some (val k))
                 else true
    | None => true
    end) index.

(** A constraint component; [deactivate] switches the whole family off. *)
Record Constraint : Type := { active : bool }.

Definition Constraint_construct : Constraint := {| active := true |}.
Definition deactivate (c : Constraint) : Constraint := {| active := false |}.

(** An active family holds when its rule holds at every index. *)
Definition Constraint_ok {K} (c : Constraint) (index : list K)
    (rule : K -> bool) : bool :=
  if active c then forallb rule index else true.

Inductive Sense : Type := minimize | maximize.
Record Objective : Type := { sense : Sense; objective_active : bool }.
Definition Objective_construct : Objective :=
  {| sense := minimize; objective_active := true |}.

(** What a solver is handed: the decision variables, by component and
    index. *)
Inductive VarId : Type :=
| Var_z (ij : Z * Z)
| Var_y (i : Z)
| Var_w (pi : string * Z).

End Pyomo.

Import Pyomo.

(** ** [k_medoids_milp.py]: the plain k-medoids model *)

Module k_medoids_milp.

(** The data an instance is created from: one entry per declared
    parameter, absent when the caller gives none. *)
Record Data : Type := {
  data_n_days : option Z;
  data_n_clusters : option Z;
  data_n_extreme_days : option Z;
  data_distance : gmap (Z * Z) Q
}.

(** A constructed instance. The sets [Days], [Days_cross] and [Clusters]
    are functions of the parameters they are declared from. *)
Record Model : Type := {
  n_days : Z;
  n_clusters : Z;
  n_extreme_days : Z;
  distance : gmap (Z * Z) Q;
  z : Var (Z * Z);
  y : Var Z;
  total_representative_days : Constraint;
  each_non_extreme_day_is_represented : Constraint;
  total_represented_days : Constraint;
  represented_by_representative : Constraint;
  minimize_total_distance : Objective
}.

Definition Days (m : Model) : list Z := RangeSet (n_days m).
Definition Days_cross (m : Model) : list (Z * Z) :=
  list_prod (Days m) (Days m).
Definition Clusters (m : Model) : list Z := RangeSet (n_clusters m).

(** The values a solver gives to the variables. *)
Record Solution : Type := {
  val_z : Z * Z -> Z;
  val_y : Z -> Z
}.

(** The rules of the constraints and of the objective. Each takes the
    instance, as in the source, and the values [s] of the variables at
    which the expression it returns is evaluated. *)
Definition _total_representative_days (m : Model) (s : Solution) : bool :=
  sumZ (fun i => val_y s i) (Days m) =? n_clusters m.

Definition _each_non_extreme_day_is_represented (m : Model) (s : Solution)
    (j : Z) : bool :=
  sumZ (fun i => val_z s (i, j)) (Days m) <=? 1.

Definition _total_represented_days (m : Model) (s : Solution) : bool :=
  sumZ (fun ij => val_z s ij) (Days_cross m)
  =? n_days m - n_extreme_days m.

Definition _represented_by_representative (m : Model) (s : Solution)
    (i j : Z) : bool :=
  val_z s (i, j) <=? val_y s i.

Definition _total_distance (m : Model) (s : Solution) : Q :=
  sumQ (fun ij => (distance m !!! ij * inject_Z (val_z s ij))%Q)
       (Days_cross m).

(** [s] is a solution of the instance: the variables are within their
    domains and every active constraint holds. *)
Definition feasible (m : Model) (s : Solution) : bool :=
  Var_ok (z m) (Days_cross m) (val_z s)
  && Var_ok (y m) (Days m) (val_y s)
  && Constraint_ok (total_representative_days m) [tt]
       (fun _ => _total_representative_days m s)
  && Constraint_ok (each_non_extreme_day_is_represented m) (Days m)
       (_each_non_extreme_day_is_represented m s)
  && Constraint_ok (total_represented_days m) [tt]
       (fun _ => _total_represented_days m s)
  && Constraint_ok (represented_by_representative m) (Days_cross m)
       (fun '(i, j) => _represented_by_representative m s i j).

(** The names of the constraint components that are active, in the order
    of their declaration. *)
Definition active_constraints (m : Model) : list string :=
  (if active (total_representative_days m)
   then ["total_representative_days"%string] else [])
  ++ (if active (each_non_extreme_day_is_represented m)
      then ["each_non_extreme_day_is_represented"%string] else [])
  ++ (if active (total_represented_days m)
      then ["total_represented_days"%string] else [])
  ++ (if active (represented_by_representative m)
      then ["represented_by_representative"%string] else []).

(** The variables left to the solver, each with its domain. *)
Definition free_variables (m : Model) : list (VarId * Domain) :=
  ((fun ij => (Var_z ij, domain (z m)))
     <$> filter (fun ij => is_free (z m) ij = true) (Days_cross m))
  ++ ((fun i => (Var_y i, domain (y m)))
        <$> filter (fun i => is_free (y m) i = true) (Days m)).

(** [create_model()] followed by the construction of the instance from
    [d]: the components are built in the order of their declaration, and
    the rule of a constraint or of the objective reads its parameters at
    every index when the component is built. *)
Definition create_model (d : Data) : result Model :=
  n_days ← Param_scalar "n_days" PositiveIntegers None (data_n_days d);
  n_clusters ←
    Param_scalar "n_clusters" PositiveIntegers None (data_n_clusters d);
  n_extreme_days ←
    Param_scalar "n_extreme_days" NonNegativeIntegers (Some 0)
      (data_n_extreme_days d);
  let Days := RangeSet n_days in
  let Days_cross := list_prod Days Days in
  distance ← Param_indexed "distance" Days_cross (data_distance d);
  let z := Var_construct Days_cross Binary (Some 0) in
  let y := Var_construct Days Binary (Some 0) in
  _ ← for_each Days_cross (Param_read "distance" distance);
  mret {|
    n_days := n_days;
    n_clusters := n_clusters;
    n_extreme_days := n_extreme_days;
    distance := distance;
    z := z;
    y := y;
    total_representative_days := Constraint_construct;
    each_non_extreme_day_is_represented := Constraint_construct;
    total_represented_days := Constraint_construct;
    represented_by_representative := Constraint_construct;
    minimize_total_distance := Objective_construct
  |}.

End k_medoids_milp.


(** ** [k_medoids_constrained.py]: the model with preservation constraints *)

Module k_medoids_constrained.

(** [m.options]: the two flags given to [create_model]. *)
Record Options : Type := {
  preserve_total_values : bool;
  preserve_peak_values : bool
}.

(** The data an instance is created from. [x_total] is not part of it: the
    model initialises that parameter itself, from [_x_total]. *)
Record Data : Type := {
  data_n_days : option Z;
  data_n_clusters : option Z;
  data_n_extreme_days : option Z;
  data_Properties : list string;
  data_distance : gmap (Z * Z) Q;
  data_x_daily_tot : gmap (string * Z) Q;
  data_x_daily_max : gmap (string * Z) Q;
  data_x_max : gmap string Q;
  data_rel_tol : gmap string Q;
  data_min_peak_share : gmap string Q
}.

(** A constructed instance. [x_daily_max] and [x_max] are the two mutable
    parameters: an index of theirs may stay without a value until a
    constraint that uses it is evaluated. *)
Record Model : Type := {
  options : Options;
  n_days : Z;
  n_clusters : Z;
  n_extreme_days : Z;
  Properties : list string;
  distance : gmap (Z * Z) Q;
  x_daily_tot : gmap (string * Z) Q;
  x_daily_max : gmap (string * Z) Q;
  x_max : gmap string Q;
  x_total : gmap string Q;
  rel_tol : gmap string Q;
  min_peak_share : gmap string Q;
  z : Var (Z * Z);
  y : Var Z;
  w : Var (string * Z);
  total_representative_days : Constraint;
  each_non_extreme_day_is_represented : Constraint;
  total_represented_days : Constraint;
  represented_by_representative : Constraint;
  relative_error_upper : Constraint;
  relative_error_lower : Constraint;
  preserve_peak : Constraint;
  at_least_one_preserved : Constraint;
  minimize_total_distance : Objective
}.

Definition Days (m : Model) : list Z := RangeSet (n_days m).
Definition Days_cross (m : Model) : list (Z * Z) :=
  list_prod (Days m) (Days m).
Definition Properties_Days (m : Model) : list (string * Z) :=
  list_prod (Properties m) (Days m).

(** The values a solver gives to the variables. *)
Record Solution : Type := {
  val_z : Z * Z -> Z;
  val_y : Z -> Z;
  val_w : string * Z -> Z
}.

(** The rule that initialises the parameter [x_total]. *)
Definition _x_total (m : Model) (p : string) : Q :=
  sumQ (fun i => x_daily_tot m !!! (p, i)) (Days m).

(** The rules of the expressions, of the constraints and of the objective.
    Each takes the instance, as in the source, and the values [s] of the
    variables at which the expression it returns is evaluated. *)
Definition _x_weight (m : Model) (s : Solution) (i : Z) : Z :=
  let n_days_represented := sumZ (fun j => val_z s (i, j)) (Days m) in
  let extreme := 1 - sumZ (fun k => val_z s (k, i)) (Days m) in
  n_days_represented + extreme.

Definition _x_total_estimated (m : Model) (s : Solution) (p : string) : Q :=
  sumQ (fun i => (inject_Z (_x_weight m s i) * x_daily_tot m !!! (p, i))%Q)
       (Days m).

Definition _chosen (m : Model) (s : Solution) (i : Z) : Z :=
  val_y s i + (1 - sumZ (fun j => val_z s (i, j)) (Days m)).

Definition _total_representative_days (m : Model) (s : Solution) : bool :=
  sumZ (fun i => val_y s i) (Days m) =? n_clusters m.

Definition _each_non_extreme_day_is_represented (m : Model) (s : Solution)
    (j : Z) : bool :=
  sumZ (fun i => val_z s (i, j)) (Days m) <=? 1.

Definition _total_represented_days (m : Model) (s : Solution) : bool :=
  sumZ (fun ij => val_z s ij) (Days_cross m)
  =? n_days m - n_extreme_days m.

Definition _represented_by_representative (m : Model) (s : Solution)
    (i j : Z) : bool :=
  val_z s (i, j) <=? val_y s i.

Definition _relative_error_upper (m : Model) (s : Solution) (p : string)
    : bool :=
  Qle_bool (_x_total_estimated m s p)
           ((1 + rel_tol m !!! p) * x_total m !!! p).

Definition _relative_error_lower (m : Model) (s : Solution) (p : string)
    : bool :=
  Qle_bool ((1 - rel_tol m !!! p) * x_total m !!! p)
           (_x_total_estimated m s p).

(** The peak constraint at (p, i). It reads the two mutable parameters: it
    can only be evaluated where both have a value. *)
Definition _preserve_peak (m : Model) (s : Solution) (p : string) (i : Z)
    : option bool :=
  daily_max ← x_daily_max m !! (p, i);
  peak ← x_max m !! p;
  Some (Qle_bool 0
          (daily_max * inject_Z (_chosen m s i)
           - inject_Z (val_w s (p, i)) * min_peak_share m !!! p * peak)).

Definition _at_least_one_preserved (m : Model) (s : Solution) (p : string)
    : bool :=
  1 <=? sumZ (fun i => val_w s (p, i)) (Days m).

Definition _total_distance (m : Model) (s : Solution) : Q :=
  sumQ (fun ij => (distance m !!! ij * inject_Z (val_z s ij))%Q)
       (Days_cross m).

(** [s] is a solution of the instance: the variables are within their
    domains, the fixed ones have their fixed value, and every active
    constraint holds. *)
Definition feasible (m : Model) (s : Solution) : bool :=
  Var_ok (z m) (Days_cross m) (val_z s)
  && Var_ok (y m) (Days m) (val_y s)
  && Var_ok (w m) (Properties_Days m) (val_w s)
  && Constraint_ok (total_representative_days m) [tt]
       (fun _ => _total_representative_days m s)
  && Constraint_ok (each_non_extreme_day_is_represented m) (Days m)
       (_each_non_extreme_day_is_represented m s)
  && Constraint_ok (total_represented_days m) [tt]
       (fun _ => _total_represented_days m s)
  && Constraint_ok (represented_by_representative m) (Days_cross m)
       (fun '(i, j) => _represented_by_representative m s i j)
  && Constraint_ok (relative_error_upper m) (Properties m)
       (_relative_error_upper m s)
  && Constraint_ok (relative_error_lower m) (Properties m)
       (_relative_error_lower m s)
  && Constraint_ok (preserve_peak m) (Properties_Days m)
       (fun '(p, i) => bool_decide (_preserve_peak m s p i = Some true))
  && Constraint_ok (at_least_one_preserved m) (Properties m)
       (_at_least_one_preserved m s).

(** Component updates, one per attribute that a build step assigns. *)
Definition set_x_total (v : gmap string Q) (m : Model) : Model :=
  {| options := options m; n_days := n_days m; n_clusters := n_clusters m;
     n_extreme_days := n_extreme_days m; Properties := Properties m;
     distance := distance m; x_daily_tot := x_daily_tot m;
     x_daily_max := x_daily_max m; x_max := x_max m;
     x_total := v;
     rel_tol := rel_tol m; min_peak_share := min_peak_share m;
     z := z m; y := y m; w := w m;
     total_representative_days := total_representative_days m;
     each_non_extreme_day_is_represented :=
       each_non_extreme_day_is_represented m;
     total_represented_days := total_represented_days m;
     represented_by_representative := represented_by_representative m;
     relative_error_upper := relative_error_upper m;
     relative_error_lower := relative_error_lower m;
     preserve_peak := preserve_peak m;
     at_least_one_preserved := at_least_one_preserved m;
     minimize_total_distance := minimize_total_distance m |}.

Definition set_w (v : Var (string * Z)) (m : Model) : Model :=
  {| options := options m; n_days := n_days m; n_clusters := n_clusters m;
     n_extreme_days := n_extreme_days m; Properties := Properties m;
     distance := distance m; x_daily_tot := x_daily_tot m;
     x_daily_max := x_daily_max m; x_max := x_max m;
     x_total := x_total m;
     rel_tol := rel_tol m; min_peak_share := min_peak_share m;
     z := z m; y := y m; w := v;
     total_representative_days := total_representative_days m;
     each_non_extreme_day_is_represented :=
       each_non_extreme_day_is_represented m;
     total_represented_days := total_represented_days m;
     represented_by_representative := represented_by_representative m;
     relative_error_upper := relative_error_upper m;
     relative_error_lower := relative_error_lower m;
     preserve_peak := preserve_peak m;
     at_least_one_preserved := at_least_one_preserved m;
     minimize_total_distance := minimize_total_distance m |}.

Definition set_relative_error_upper (c : Constraint) (m : Model) : Model :=
  {| options := options m; n_days := n_days m; n_clusters := n_clusters m;
     n_extreme_days := n_extreme_days m; Properties := Properties m;
     distance := distance m; x_daily_tot := x_daily_tot m;
     x_daily_max := x_daily_max m; x_max := x_max m;
     x_total := x_total m;
     rel_tol := rel_tol m; min_peak_share := min_peak_share m;
     z := z m; y := y m; w := w m;
     total_representative_days := total_representative_days m;
     each_non_extreme_day_is_represented :=
       each_non_extreme_day_is_represented m;
     total_represented_days := total_represented_days m;
     represented_by_representative := represented_by_representative m;
     relative_error_upper := c;
     relative_error_lower := relative_error_lower m;
     preserve_peak := preserve_peak m;
     at_least_one_preserved := at_least_one_preserved m;
     minimize_total_distance := minimize_total_distance m |}.

Definition set_relative_error_lower (c : Constraint) (m : Model) : Model :=
  {| options := options m; n_days := n_days m; n_clusters := n_clusters m;
     n_extreme_days := n_extreme_days m; Properties := Properties m;
     distance := distance m; x_daily_tot := x_daily_tot m;
     x_daily_max := x_daily_max m; x_max := x_max m;
     x_total := x_total m;
     rel_tol := rel_tol m; min_peak_share := min_peak_share m;
     z := z m; y := y m; w := w m;
     total_representative_days := total_representative_days m;
     each_non_extreme_day_is_represented :=
       each_non_extreme_day_is_represented m;
     total_represented_days := total_represented_days m;
     represented_by_representative := represented_by_representative m;
     relative_error_upper := relative_error_upper m;
     relative_error_lower := c;
     preserve_peak := preserve_peak m;
     at_least_one_preserved := at_least_one_preserved m;
     minimize_total_distance := minimize_total_distance m |}.

Definition set_preserve_peak (c : Constraint) (m : Model) : Model :=
  {| options := options m; n_days := n_days m; n_clusters := n_clusters m;
     n_extreme_days := n_extreme_days m; Properties := Properties m;
     distance := distance m; x_daily_tot := x_daily_tot m;
     x_daily_max := x_daily_max m; x_max := x_max m;
     x_total := x_total m;
     rel_tol := rel_tol m; min_peak_share := min_peak_share m;
     z := z m; y := y m; w := w m;
     total_representative_days := total_representative_days m;
     each_non_extreme_day_is_represented :=
       each_non_extreme_day_is_represented m;
     total_represented_days := total_represented_days m;
     represented_by_representative := represented_by_representative m;
     relative_error_upper := relative_error_upper m;
     relative_error_lower := relative_error_lower m;
     preserve_peak := c;
     at_least_one_preserved := at_least_one_preserved m;
     minimize_total_distance := minimize_total_distance m |}.

Definition set_at_least_one_preserved (c : Constraint) (m : Model) : Model :=
  {| options := options m; n_days := n_days m; n_clusters := n_clusters m;
     n_extreme_days := n_extreme_days m; Properties := Properties m;
     distance := distance m; x_daily_tot := x_daily_tot m;
     x_daily_max := x_daily_max m; x_max := x_max m;
     x_total := x_total m;
     rel_tol := rel_tol m; min_peak_share := min_peak_share m;
     z := z m; y := y m; w := w m;
     total_representative_days := total_representative_days m;
     each_non_extreme_day_is_represented :=
       each_non_extreme_day_is_represented m;
     total_represented_days := total_represented_days m;
     represented_by_representative := represented_by_representative m;
     relative_error_upper := relative_error_upper m;
     relative_error_lower := relative_error_lower m;
     preserve_peak := preserve_peak m;
     at_least_one_preserved := c;
     minimize_total_distance := minimize_total_distance m |}.

(** The build action: switches off the constraints the options do not ask
    for and fixes the variables only they use. Statements run in the order
    of the source. *)
Definition _apply_options (m : Model) : Model :=
  let m :=
    if negb (preserve_total_values (options m)) then
      let m := set_relative_error_upper
                 (deactivate (relative_error_upper m)) m in
      let m := set_relative_error_lower
                 (deactivate (relative_error_lower m)) m in
      m
    else m in
  let m :=
    if negb (preserve_peak_values (options m)) then
      let m := set_preserve_peak (deactivate (preserve_peak m)) m in
      let m := set_at_least_one_preserved
                 (deactivate (at_least_one_preserved m)) m in
      let m := set_w (Var_fix 0 (w m)) m in
      m
    else m in
  m.

(** The names of the constraint components that are active, in the order
    of their declaration. *)
Definition active_constraints (m : Model) : list string :=
  (if active (total_representative_days m)
   then ["total_representative_days"%string] else [])
  ++ (if active (each_non_extreme_day_is_represented m)
      then ["each_non_extreme_day_is_represented"%string] else [])
  ++ (if active (total_represented_days m)
      then ["total_represented_days"%string] else [])
  ++ (if active (represented_by_representative m)
      then ["represented_by_representative"%string] else [])
  ++ (if active (relative_error_upper m)
      then ["relative_error_upper"%string] else [])
  ++ (if active (relative_error_lower m)
      then ["relative_error_lower"%string] else [])
  ++ (if active (preserve_peak m)
      then ["preserve_peak"%string] else [])
  ++ (if active (at_least_one_preserved m)
      then ["at_least_one_preserved"%string] else []).

(** The variables left to the solver, each with its domain. *)
Definition free_variables (m : Model) : list (VarId * Domain) :=
  ((fun ij => (Var_z ij, domain (z m)))
     <$> filter (fun ij => is_free (z m) ij = true) (Days_cross m))
  ++ ((fun i => (Var_y i, domain (y m)))
        <$> filter (fun i => is_free (y m) i = true) (Days m))
  ++ ((fun pi => (Var_w pi, domain (w m)))
        <$> filter (fun pi => is_free (w m) pi = true) (Properties_Days m)).

(** The instance as it stands when every declared component is built and
    the build action has not run yet. The components are built in the order
    of their declaration; a rule reads its immutable parameters at every
    index when its component is built, whether or not the component is
    later switched off. The mutable parameters are only referred to. The
    record is assembled at the end, so the rule of [x_total] is applied to
    an instance whose [x_total] is still empty: it only reads [x_daily_tot]
    and [Days]. *)
Definition construct (preserve_total_values preserve_peak_values : bool)
    (d : Data) : result Model :=
  n_days ← Param_scalar "n_days" PositiveIntegers None (data_n_days d);
  n_clusters ←
    Param_scalar "n_clusters" PositiveIntegers None (data_n_clusters d);
  n_extreme_days ←
    Param_scalar "n_extreme_days" NonNegativeIntegers (Some 0)
      (data_n_extreme_days d);
  let Days := RangeSet n_days in
  let Days_cross := list_prod Days Days in
  let Properties := data_Properties d in
  let Properties_Days := list_prod Properties Days in
  distance ← Param_indexed "distance" Days_cross (data_distance d);
  x_daily_tot ←
    Param_indexed "x_daily_tot" Properties_Days (data_x_daily_tot d);
  x_daily_max ←
    Param_indexed "x_daily_max" Properties_Days (data_x_daily_max d);
  x_max ← Param_indexed "x_max" Properties (data_x_max d);
  (* x_total, and later x_total_estimated: x_daily_tot[p,i] *)
  _ ← for_each Properties_Days (Param_read "x_daily_tot" x_daily_tot);
  rel_tol ← Param_indexed "rel_tol" Properties (data_rel_tol d);
  min_peak_share ←
    Param_indexed "min_peak_share" Properties (data_min_peak_share d);
  let z := Var_construct Days_cross Binary (Some 0) in
  let y := Var_construct Days Binary (Some 0) in
  let w := Var_construct Properties_Days Binary None in
  (* relative_error_upper, relative_error_lower: rel_tol[p]; x_total[p] has
     a value for every property *)
  _ ← for_each Properties (Param_read "rel_tol" rel_tol);
  (* preserve_peak: min_peak_share[p] *)
  _ ← for_each Properties_Days
        (fun pi => Param_read "min_peak_share" min_peak_share pi.1);
  (* minimize_total_distance: distance[ij] *)
  _ ← for_each Days_cross (Param_read "distance" distance);
  let m0 := {|
    options := {| preserve_total_values := preserve_total_values;
                  preserve_peak_values := preserve_peak_values |};
    n_days := n_days;
    n_clusters := n_clusters;
    n_extreme_days := n_extreme_days;
    Properties := Properties;
    distance := distance;
    x_daily_tot := x_daily_tot;
    x_daily_max := x_daily_max;
    x_max := x_max;
    x_total := ∅;
    rel_tol := rel_tol;
    min_peak_share := min_peak_share;
    z := z;
    y := y;
    w := w;
    total_representative_days := Constraint_construct;
    each_non_extreme_day_is_represented := Constraint_construct;
    total_represented_days := Constraint_construct;
    represented_by_representative := Constraint_construct;
    relative_error_upper := Constraint_construct;
    relative_error_lower := Constraint_construct;
    preserve_peak := Constraint_construct;
    at_least_one_preserved := Constraint_construct;
    minimize_total_distance := Objective_construct
  |} in
  mret (set_x_total
          (list_to_map ((fun p => (p, _x_total m0 p)) <$> Properties)) m0).

(** [create_model(preserve_total_values, preserve_peak_values)] followed by
    the construction of the instance from [d]; the build action
    [apply_options] is the last component. *)
Definition create_model (preserve_total_values preserve_peak_values : bool)
    (d : Data) : result Model :=
  m ← construct preserve_total_values preserve_peak_values d;
  mret (_apply_options m).

(** The part of the data the plain model declares. *)
Definition plain_data (d : Data) : k_medoids_milp.Data :=
  {| k_medoids_milp.data_n_days := data_n_days d;
     k_medoids_milp.data_n_clusters := data_n_clusters d;
     k_medoids_milp.data_n_extreme_days := data_n_extreme_days d;
     k_medoids_milp.data_distance := data_distance d |}.

(** The components of a constrained instance that the plain model
    declares too, as a plain instance. *)
Definition plain_model (m : Model) : k_medoids_milp.Model :=
  {| k_medoids_milp.n_days := n_days m;
     k_medoids_milp.n_clusters := n_clusters m;
     k_medoids_milp.n_extreme_days := n_extreme_days m;
     k_medoids_milp.distance := distance m;
     k_medoids_milp.z := z m;
     k_medoids_milp.y := y m;
     k_medoids_milp.total_representative_days :=
       total_representative_days m;
     k_medoids_milp.each_non_extreme_day_is_represented :=
       each_non_extreme_day_is_represented m;
     k_medoids_milp.total_represented_days := total_represented_days m;
     k_medoids_milp.represented_by_representative :=
       represented_by_representative m;
     k_medoids_milp.minimize_total_distance := minimize_total_distance m |}.

(** The part of a solution the plain model has variables for. *)
Definition plain_solution (s : Solution) : k_medoids_milp.Solution :=
  {| k_medoids_milp.val_z := val_z s;
     k_medoids_milp.val_y := val_y s |}.

End k_medoids_constrained.

Module P := k_medoids_milp.
Module K := k_medoids_constrained.

(** ** The specification's own wording of the derived quantities *)

Module Spec.

Definition binary (v : Z) : Prop := v = 0 \/ v = 1.

(** The four base constraint families, over the days 1..[n_days]. *)
Record base_constraints (n_days n_clusters n_extreme_days : Z)
    (val_y : Z -> Z) (val_z : Z * Z -> Z) : Prop := {
  cardinality :
    sumZ val_y (RangeSet n_days) = n_clusters;
  single_coverage :
    forall j, j ∈ RangeSet n_days ->
      sumZ (fun i => val_z (i, j)) (RangeSet n_days) <= 1;
  total_coverage :
    sumZ val_z (list_prod (RangeSet n_days) (RangeSet n_days))
    = n_days - n_extreme_days;
  representative_gating :
    forall i j, i ∈ RangeSet n_days -> j ∈ RangeSet n_days ->
      val_z (i, j) <= val_y i
}.

(** Day [i] is a representative. *)
Definition representative (s : K.Solution) (i : Z) : bool :=
  K.val_y s i =? 1.

(** Day [i] is covered by (assigned to) some representative [k]. *)
Definition covered (m : K.Model) (s : K.Solution) (i : Z) : bool :=
  existsb (fun k => K.val_z s (k, i) =? 1) (K.Days m).

(** Day [i] is a chosen day: a representative, or an extreme day, that is
    one no representative covers. *)
Definition chosen_day (m : K.Model) (s : K.Solution) (i : Z) : bool :=
  representative s i || negb (covered m s i).

(** chosen(i) = y[i] + (1 − Σ_k z[k,i]). *)
Definition chosen (m : K.Model) (s : K.Solution) (i : Z) : Z :=
  K.val_y s i + (1 - sumZ (fun k => K.val_z s (k, i)) (K.Days m)).

(** The number of days assigned to [i]. *)
Definition days_assigned (m : K.Model) (s : K.Solution) (i : Z) : Z :=
  Z.of_nat (length (filter (fun j => K.val_z s (i, j) = 1) (K.Days m))).

(** weight(i) = (number of days assigned to i)
                + (1 if i is not assigned to any representative, else 0). *)
Definition weight (m : K.Model) (s : K.Solution) (i : Z) : Z :=
  days_assigned m s i + (if covered m s i then 0 else 1).

(** The assignment in which every day represents itself and nothing else. *)
Definition self_assignment : P.Solution :=
  {| P.val_z := fun ij => if bool_decide (ij.1 = ij.2) then 1 else 0;
     P.val_y := fun _ => 1 |}.

End Spec.

(** ** Concrete instances *)

Module Examples.

Definition load : string := "load".

(** Two days, one cluster, one property whose peak is 10 on both days. *)
Definition two_days (min_peak_share : Q) : K.Data := {|
  K.data_n_days := Some 2;
  K.data_n_clusters := Some 1;
  K.data_n_extreme_days := None;
  K.data_Properties := [load];
  K.data_distance :=
    list_to_map [((1, 1), 0%Q); ((1, 2), 1%Q); ((2, 1), 1%Q); ((2, 2), 0%Q)];
  K.data_x_daily_tot := list_to_map [((load, 1), 10%Q); ((load, 2), 10%Q)];
  K.data_x_daily_max := list_to_map [((load, 1), 10%Q); ((load, 2), 10%Q)];
  K.data_x_max := {[ load := 10%Q ]};
  K.data_rel_tol := {[ load := (1 # 10)%Q ]};
  K.data_min_peak_share := {[ load := min_peak_share ]}
|}.

(** The instance of [two_days] with both preservation options, for a
    required peak share of one half and of zero, and without any. *)
Definition half_peak : K.Model :=
  Ok_value (K.create_model true true (two_days (1 # 2))) eq_refl.
Definition zero_peak : K.Model :=
  Ok_value (K.create_model true true (two_days 0)) eq_refl.
Definition no_options : K.Model :=
  Ok_value (K.create_model false false (two_days (1 # 2))) eq_refl.

(** Day 1 is the representative and both days are assigned to it; the peak
    witnesses are the days [witness] selects. *)
Definition day1_represents_all (witness : Z -> bool) : K.Solution := {|
  K.val_z := fun ij => if bool_decide (ij.1 = 1) then 1 else 0;
  K.val_y := fun i => if bool_decide (i = 1) then 1 else 0;
  K.val_w := fun pi => if witness pi.2 then 1 else 0
|}.

Definition witness_on_day2 : K.Solution := day1_represents_all (Z.eqb 2).
Definition witness_on_both_days : K.Solution :=
  day1_represents_all (fun _ => true).

(** Two days, two clusters, one extreme day, no property. *)
Definition two_clusters : K.Data := {|
  K.data_n_days := Some 2;
  K.data_n_clusters := Some 2;
  K.data_n_extreme_days := Some 1;
  K.data_Properties := [];
  K.data_distance :=
    list_to_map [((1, 1), 0%Q); ((1, 2), 1%Q); ((2, 1), 1%Q); ((2, 2), 0%Q)];
  K.data_x_daily_tot := ∅;
  K.data_x_daily_max := ∅;
  K.data_x_max := ∅;
  K.data_rel_tol := ∅;
  K.data_min_peak_share := ∅
|}.

Definition two_clusters_model : K.Model :=
  Ok_value (K.create_model false false two_clusters) eq_refl.

(** Both days are representatives; day 1 represents day 2 and is itself
    represented by nobody, day 2 represents nobody. *)
Definition day1_represents_day2 : K.Solution := {|
  K.val_z := fun ij => if bool_decide (ij = (1, 2)) then 1 else 0;
  K.val_y := fun _ => 1;
  K.val_w := fun _ => 0
|}.

(** More clusters than days. *)
Definition more_clusters_than_days : K.Data := {|
  K.data_n_days := Some 1;
  K.data_n_clusters := Some 2;
  K.data_n_extreme_days := None;
  K.data_Properties := [];
  K.data_distance := {[ (1, 1) := 0%Q ]};
  K.data_x_daily_tot := ∅;
  K.data_x_daily_max := ∅;
  K.data_x_max := ∅;
  K.data_rel_tol := ∅;
  K.data_min_peak_share := ∅
|}.

Definition more_clusters_than_days_model : K.Model :=
  Ok_value (K.create_model false false more_clusters_than_days) eq_refl.

(** No day at all. *)
Definition no_days : K.Data := {|
  K.data_n_days := Some 0;
  K.data_n_clusters := Some 1;
  K.data_n_extreme_days := None;
  K.data_Properties := [];
  K.data_distance := ∅;
  K.data_x_daily_tot := ∅;
  K.data_x_daily_max := ∅;
  K.data_x_max := ∅;
  K.data_rel_tol := ∅;
  K.data_min_peak_share := ∅
|}.

(** Three days, three clusters, every distance equal to [c]. *)
Definition three_days (c : Q) : P.Data := {|
  P.data_n_days := Some 3;
  P.data_n_clusters := Some 3;
  P.data_n_extreme_days := Some 0;
  P.data_distance :=
    list_to_map ((fun ij => (ij, c)) <$> list_prod [1; 2; 3] [1; 2; 3])
|}.

Definition three_days_plain : P.Model :=
  Ok_value (P.create_model (three_days 1)) eq_refl.

(** Day 1 represents all three days. *)
Definition all_to_day1 : P.Solution := {|
  P.val_z := fun ij => if bool_decide (ij.1 = 1) then 1 else 0;
  P.val_y := fun _ => 1
|}.

End Examples.

(** ** [clustering_utils.py]: shaping the input and reading the results *)

Module clustering_utils.

Section InputDictionary.
Context `{Countable Key} {V : Type}.

(** A field of the data dictionary: a plain value, or a dict from indices
    (or [None]) to values. *)
Inductive Field : Type :=
| Scalar (v : V)
| Indexed (d : gmap (option Key) V).

(** [isinstance(v, dict)]. *)
Definition is_dict (v : Field) : bool :=
  match v with
  | Indexed _ => true
  | Scalar _ => false
  end.

(** One step of the loop over [data_dict.items()]: a value that is not a
    dict is replaced, under its own key, by [{None: v}]. *)
Definition wrap_item (k : string) (v : Field) (data_dict : gmap string Field)
    : gmap string Field :=
  match v with
  | Indexed _ => data_dict
  | Scalar a => <[k := Indexed {[None := a]}]> data_dict
  end.

(** [get_pyomo_input_dictionary(data_dict, namespace)]. The loop updates
    [data_dict] in place, so the result has two parts: the dictionary as
    the call leaves it, and the returned [{namespace: data_dict}]. *)
Definition get_pyomo_input_dictionary (data_dict : gmap string Field)
    (namespace : option string)
    : gmap string Field * gmap (option string) (gmap string Field) :=
  let data_dict := map_fold wrap_item data_dict data_dict in
  (data_dict, {[ namespace := data_dict ]}).

End InputDictionary.

Arguments Field Key {_ _} V.

(** [extract_indexed_expression_values(indexed_expr)], for an indexed
    expression given by its index set and by the value [expr ind] that
    [pe.value] computes at each index. *)
Definition extract_indexed_expression_values `{Countable K} {V}
    (index : list K) (expr : K -> V) : gmap K V :=
  list_to_map ((fun ind => (ind, expr ind)) <$> index).

(** The sum of the values of a dict. *)
Definition sum_values `{Countable K} (values : gmap K Z) : Z :=
  map_fold (fun _ v acc => v + acc) 0 values.

(** [x.get_values()]: the current value of every variable of the
    component, [None] where there is none. *)
Definition get_values `{Countable K} (x : Var K) : gmap K (option Z) :=
  value <$> data x.

(** [pd.Series(d).unstack()] on a dict keyed by pairs: a table with one row
    per first component and one column per second component. *)
Definition unstack {A} (series : gmap (Z * Z) A) : gmap Z (gmap Z A) :=
  map_curry (M1 := gmap Z) (M2 := gmap Z) series.

(** [extract_results(model_instance)], on the components [y] and [z] of
    the instance. *)
Definition extract_results (instance_y : Var Z) (instance_z : Var (Z * Z))
    : gmap Z (option Z) * gmap Z (gmap Z (option Z)) :=
  let y := get_values instance_y in
  let z := unstack (get_values instance_z) in
  (y, z).

End clustering_utils.

Module U := clustering_utils.

(** ** Further notions and instances *)

Module More.

(** The data from which the constrained builder can build an instance:
    the counts are within their domains, no parameter is given a value
    outside its index set, and every immutable parameter has a value at
    every index that a rule reads. *)
Definition well_formed (d : K.Data) : Prop :=
  exists n c,
    K.data_n_days d = Some n /\ 0 < n
    /\ K.data_n_clusters d = Some c /\ 0 < c
    /\ 0 <= default 0 (K.data_n_extreme_days d)
    /\ (forall ij, is_Some (K.data_distance d !! ij)
                   <-> ij ∈ list_prod (RangeSet n) (RangeSet n))
    /\ (forall pi, is_Some (K.data_x_daily_tot d !! pi)
                   <-> pi ∈ list_prod (K.data_Properties d) (RangeSet n))
    /\ (forall pi, is_Some (K.data_x_daily_max d !! pi)
                   -> pi ∈ list_prod (K.data_Properties d) (RangeSet n))
    /\ (forall p, is_Some (K.data_x_max d !! p) -> p ∈ K.data_Properties d)
    /\ (forall p, is_Some (K.data_rel_tol d !! p)
                  <-> p ∈ K.data_Properties d)
    /\ (forall p, is_Some (K.data_min_peak_share d !! p)
                  <-> p ∈ K.data_Properties d).

(** The solution in which the first [n_clusters] days are representatives
    and day 1 represents the first [n_days − n_extreme_days] days. *)
Definition first_days (m : P.Model) : P.Solution := {|
  P.val_z := fun ij =>
    if (ij.1 =? 1) && (ij.2 <=? P.n_days m - P.n_extreme_days m)
    then 1 else 0;
  P.val_y := fun i => if i <=? P.n_clusters m then 1 else 0
|}.

(** The values the variables are initialised with. *)
Definition all_zero : P.Solution :=
  {| P.val_z := fun _ => 0; P.val_y := fun _ => 0 |}.

(** Four days, two clusters, one extreme day. *)
Definition four_days : P.Data := {|
  P.data_n_days := Some 4;
  P.data_n_clusters := Some 2;
  P.data_n_extreme_days := Some 1;
  P.data_distance :=
    list_to_map ((fun ij => (ij, 1%Q))
                   <$> list_prod [1; 2; 3; 4] [1; 2; 3; 4])
|}.

Definition four_days_model : P.Model :=
  Ok_value (P.create_model four_days) eq_refl.

(** A data dictionary with one scalar and one indexed field. *)
Definition raw_data : gmap string (U.Field Z Z) :=
  {[ "n_days"%string := U.Scalar 3;
     "distance"%string := U.Indexed {[ Some 1 := 0; Some 2 := 5 ]} ]}.

End More.

(** * Properties *)

(** ** Sums over index lists *)

Section Sums.
Context {A B : Type}.

Lemma sumZ_ext (f g : A -> Z) (l : list A) :
  (forall a, a ∈ l -> f a = g a) -> sumZ f l = sumZ g l.
Proof.
  induction l as [|a l IH]; intros Hfg; simpl; [done|].
  rewrite (Hfg a) by constructor.
  rewrite IH; [done|]. intros b Hb. apply Hfg. by constructor.
Qed.

Lemma sumZ_app (f : A -> Z) (l1 l2 : list A) :
  sumZ f (l1 ++ l2) = sumZ f l1 + sumZ f l2.
Proof. induction l1 as [|a l1 IH]; simpl; lia. Qed.

Lemma sumZ_map (g : B -> A) (f : A -> Z) (l : list B) :
  sumZ f (map g l) = sumZ (fun b => f (g b)) l.
Proof. induction l as [|b l IH]; simpl; congruence. Qed.

Lemma sumZ_add (f g : A -> Z) (l : list A) :
  sumZ (fun a => f a + g a) l = sumZ f l + sumZ g l.
Proof. induction l as [|a l IH]; simpl; lia. Qed.

Lemma sumZ_sub (f g : A -> Z) (l : list A) :
  sumZ (fun a => f a - g a) l = sumZ f l - sumZ g l.
Proof. induction l as [|a l IH]; simpl; lia. Qed.

Lemma sumZ_const (c : Z) (l : list A) :
  sumZ (fun _ => c) l = c * Z.of_nat (length l).
Proof. induction l as [|a l IH]; simpl length; simpl sumZ; lia. Qed.

Lemma sumZ_nonneg (f : A -> Z) (l : list A) :
  (forall a, a ∈ l -> 0 <= f a) -> 0 <= sumZ f l.
Proof.
  induction l as [|a l IH]; intros Hf; simpl; [done|].
  assert (0 <= f a) by (apply Hf; constructor).
  assert (0 <= sumZ f l) by (apply IH; intros b Hb; apply Hf; by constructor).
  lia.
Qed.

Lemma sumZ_le_length (f : A -> Z) (l : list A) :
  (forall a, a ∈ l -> f a <= 1) -> sumZ f l <= Z.of_nat (length l).
Proof.
  induction l as [|a l IH]; intros Hf; simpl length; simpl sumZ; [done|].
  assert (f a <= 1) by (apply Hf; constructor).
  assert (sumZ f l <= Z.of_nat (length l))
    by (apply IH; intros b Hb; apply Hf; by constructor).
  lia.
Qed.

(** A sum of 0/1 terms is zero exactly when no term is 1. *)
Lemma sumZ_binary_zero (f : A -> Z) (l : list A) :
  (forall a, a ∈ l -> Spec.binary (f a)) ->
  sumZ f l = 0 <-> existsb (fun a => f a =? 1) l = false.
Proof.
  induction l as [|a l IH]; intros Hf; simpl; [done|].
  assert (Spec.binary (f a)) as Ha by (apply Hf; constructor).
  assert (forall b, b ∈ l -> Spec.binary (f b)) as Hl
    by (intros b Hb; apply Hf; by constructor).
  assert (0 <= sumZ f l)
    by (apply sumZ_nonneg; intros b Hb; destruct (Hl b Hb); lia).
  specialize (IH Hl). rewrite orb_false_iff, Z.eqb_neq, <- IH.
  destruct Ha; lia.
Qed.

(** A sum of 0/1 terms counts the terms equal to 1. *)
Lemma sumZ_binary_count (f : A -> Z) (l : list A) :
  (forall a, a ∈ l -> Spec.binary (f a)) ->
  sumZ f l = Z.of_nat (length (filter (fun a => f a = 1) l)).
Proof.
  induction l as [|a l IH]; intros Hf; [done|].
  assert (Spec.binary (f a)) as Ha by (apply Hf; constructor).
  assert (forall b, b ∈ l -> Spec.binary (f b)) as Hl
    by (intros b Hb; apply Hf; by constructor).
  simpl sumZ. rewrite filter_cons, (IH Hl).
  destruct (decide (f a = 1)); simpl length; destruct Ha; lia.
Qed.

Lemma sumQ_ext (f g : A -> Q) (l : list A) :
  (forall a, a ∈ l -> (f a == g a)%Q) -> (sumQ f l == sumQ g l)%Q.
Proof.
  induction l as [|a l IH]; intros Hfg; simpl; [reflexivity|].
  rewrite (Hfg a) by constructor.
  rewrite IH; [reflexivity|]. intros b Hb. apply Hfg. by constructor.
Qed.

Lemma sumQ_nonneg (f : A -> Q) (l : list A) :
  (forall a, a ∈ l -> (0 <= f a)%Q) -> (0 <= sumQ f l)%Q.
Proof.
  induction l as [|a l IH]; intros Hf; simpl; [lra|].
  assert (0 <= f a)%Q by (apply Hf; constructor).
  assert (0 <= sumQ f l)%Q
    by (apply IH; intros b Hb; apply Hf; by constructor).
  lra.
Qed.

Lemma sumQ_zero (f : A -> Q) (l : list A) :
  (forall a, a ∈ l -> (f a == 0)%Q) -> (sumQ f l == 0)%Q.
Proof.
  induction l as [|a l IH]; intros Hf; simpl; [reflexivity|].
  rewrite (Hf a) by constructor.
  rewrite IH; [lra|]. intros b Hb. apply Hf. by constructor.
Qed.

(** A weighted sum of a constant is the constant times the total weight. *)
Lemma sumQ_weighted_const (g : A -> Z) (c : Q) (l : list A) :
  (sumQ (fun a => inject_Z (g a) * c) l == inject_Z (sumZ g l) * c)%Q.
Proof.
  induction l as [|a l IH]; simpl.
  - change (inject_Z 0) with 0%Q. lra.
  - rewrite IH, inject_Z_plus. lra.
Qed.

Lemma sumQ_const (c : Q) (l : list A) :
  (sumQ (fun _ => c) l == inject_Z (Z.of_nat (length l)) * c)%Q.
Proof.
  induction l as [|a l IH].
  - simpl. change (inject_Z (Z.of_nat 0)) with 0%Q. lra.
  - simpl sumQ. simpl length. rewrite IH, Nat2Z.inj_succ.
    unfold Z.succ. rewrite inject_Z_plus. change (inject_Z 1) with 1%Q. ring.
Qed.

Lemma forallb_elem_of (f : A -> bool) (l : list A) :
  forallb f l = true <-> forall a, a ∈ l -> f a = true.
Proof.
  rewrite forallb_forall. split; intros Hf a Ha; apply Hf;
    by apply list_elem_of_In.
Qed.

End Sums.

Lemma sumZ_list_prod {A B} (f : A * B -> Z) (l1 : list A) (l2 : list B) :
  sumZ f (list_prod l1 l2) = sumZ (fun a => sumZ (fun b => f (a, b)) l2) l1.
Proof.
  induction l1 as [|a l1 IH]; simpl; [done|].
  by rewrite sumZ_app, sumZ_map, IH.
Qed.

Lemma sumZ_swap {A B} (f : A -> B -> Z) (l1 : list A) (l2 : list B) :
  sumZ (fun a => sumZ (fun b => f a b) l2) l1
  = sumZ (fun b => sumZ (fun a => f a b) l1) l2.
Proof.
  induction l1 as [|a l1 IH]; simpl.
  - by rewrite sumZ_const.
  - by rewrite IH, sumZ_add.
Qed.

Lemma elem_of_RangeSet (n i : Z) : i ∈ RangeSet n <-> 1 <= i <= n.
Proof. unfold RangeSet. rewrite elem_of_seqZ. lia. Qed.

Lemma length_RangeSet (n : Z) :
  0 <= n -> Z.of_nat (length (RangeSet n)) = n.
Proof. intros Hn. unfold RangeSet. rewrite length_seqZ. lia. Qed.

Lemma elem_of_list_prod {A B} (l1 : list A) (l2 : list B) (a : A) (b : B) :
  (a, b) ∈ list_prod l1 l2 <-> a ∈ l1 /\ b ∈ l2.
Proof. rewrite !list_elem_of_In. apply in_prod_iff. Qed.

Lemma within_Binary (v : Z) : within Binary v = true <-> Spec.binary v.
Proof.
  unfold within, Spec.binary. rewrite orb_true_iff, !Z.eqb_eq. tauto.
Qed.

(** ** Construction steps *)

Lemma Param_scalar_Ok name d initialize data v :
  Param_scalar name d initialize data = Ok v ->
  within d v = true /\
  (data = Some v \/ (data = None /\ initialize = Some v)).
Proof.
  unfold Param_scalar. intros Hv.
  destruct data as [u|]; [|destruct initialize as [u|]; [|done]];
    destruct (within d u) eqn:Hd; try done;
    injection Hv as <-; auto.
Qed.

Lemma Param_indexed_Ok `{Countable K} name (index : list K) data P :
  Param_indexed name index data = Ok P ->
  P = data /\ forall k, is_Some (data !! k) -> k ∈ index.
Proof.
  unfold Param_indexed. case_bool_decide as Hdom; [|done].
  intros [= <-]. split; [done|]. intros k [q Hq]. exact (Hdom k q Hq).
Qed.

Lemma Param_read_Ok `{Countable K} name (P : gmap K Q) k u :
  Param_read name P k = Ok u <-> is_Some (P !! k).
Proof.
  unfold Param_read. destruct (P !! k) as [q|]; split.
  - by eexists.
  - by destruct u.
  - done.
  - by intros [? ?].
Qed.

Lemma for_each_Ok {K} (index : list K) (rule : K -> result unit) u :
  for_each index rule = Ok u <-> forall k, k ∈ index -> rule k = Ok tt.
Proof.
  destruct u. induction index as [|k ks IH]; simpl.
  - split; [|done]. intros _ k Hk. by inversion Hk.
  - destruct (rule k) as [[]|e] eqn:Hk; cbn [mbind result_bind].
    + rewrite IH. split.
      * intros Hks k' [->|Hk']%elem_of_cons; auto.
      * intros Hks k' Hk'. apply Hks. by constructor.
    + split; [done|]. intros Hks.
      specialize (Hks k ltac:(constructor)). congruence.
Qed.

Lemma lookup_Var_construct `{Countable K} (index : list K) d initialize k :
  data (Var_construct index d initialize) !! k
  = if decide (k ∈ index)
    then Some {| value := initialize; fixed := false |}
    else None.
Proof.
  unfold Var_construct. simpl. rewrite lookup_gset_to_gmap.
  destruct (decide (k ∈ index)) as [Hk|Hk].
  - rewrite option_guard_True by set_solver. done.
  - rewrite option_guard_False by set_solver. done.
Qed.

Lemma lookup_list_to_map_rule {V} (f : string -> V) (l : list string) p :
  p ∈ l ->
  (list_to_map ((fun p => (p, f p)) <$> l) : gmap string V) !! p
  = Some (f p).
Proof.
  induction l as [|q l IH]; intros Hp; [by inversion Hp|].
  simpl. destruct (decide (q = p)) as [->|Hne].
  - by rewrite lookup_insert_eq.
  - rewrite lookup_insert_ne by done. apply IH.
    apply elem_of_cons in Hp as [->|Hp]; done.
Qed.

(** Stepping through the binds of a construction that succeeded. *)
Ltac inv_bind H :=
  repeat match type of H with
  | mbind _ ?r = Ok _ =>
      let E := fresh "E" in
      destruct r eqn:E; [|discriminate H]; cbn [mbind result_bind] in H
  | mret _ = Ok _ => injection H as H
  end.

Ltac inv_create H :=
  unfold K.create_model in H; inv_bind H;
  match goal with
  | E : K.construct _ _ _ = Ok _ |- _ => unfold K.construct in E; inv_bind E
  end.

Ltac inv_create_plain H := unfold P.create_model in H; inv_bind H.

(** ** The build action [_apply_options] *)

Lemma Var_fix_idem `{Countable K} (v : Z) (x : Var K) :
  Var_fix v (Var_fix v x) = Var_fix v x.
Proof.
  unfold Var_fix. simpl. f_equal. by rewrite <- map_fmap_compose.
Qed.

Lemma lookup_Var_fix `{Countable K} (v : Z) (x : Var K) (k : K) :
  data (Var_fix v x) !! k
  = (fun _ => {| value := Some v; fixed := true |}) <$> data x !! k.
Proof. unfold Var_fix. simpl. by rewrite lookup_fmap. Qed.

(** C7: the activation step is idempotent. Whatever the two flags are, a
    second run of [_apply_options] leaves the instance exactly as the first
    run left it: the same constraints active and inactive, the same
    variables fixed, with the same values. *)
Theorem C7_apply_options_idempotent (m : K.Model) :
  K._apply_options (K._apply_options m) = K._apply_options m.
Proof.
  destruct m as [[ptv ppv] ? ? ? ? ? ? ? ? ? ? ? vz vy vw ? ? ? ? ? ? ? ? ?].
  unfold K._apply_options.
  destruct ptv, ppv; cbn; try reflexivity;
    unfold K.set_w; cbn; by rewrite Var_fix_idem.
Qed.

(** C6: the activation step touches the preservation machinery and nothing
    else. In every flag combination the options, the parameters, the
    variables [y] and [z], the four base constraints and the objective are
    left as they were. The two total-value constraints are switched off
    exactly when [preserve_total_values] is false, and no variable is fixed
    on that account. The peak constraint and the at-least-one-witness
    constraint are switched off, and every [w[p,i]] is fixed to 0, exactly
    when [preserve_peak_values] is false. *)
Theorem C6_apply_options_frame (m : K.Model) :
  let m' := K._apply_options m in
  (K.options m' = K.options m
   /\ K.n_days m' = K.n_days m
   /\ K.n_clusters m' = K.n_clusters m
   /\ K.n_extreme_days m' = K.n_extreme_days m
   /\ K.Properties m' = K.Properties m
   /\ K.distance m' = K.distance m
   /\ K.x_daily_tot m' = K.x_daily_tot m
   /\ K.x_daily_max m' = K.x_daily_max m
   /\ K.x_max m' = K.x_max m
   /\ K.x_total m' = K.x_total m
   /\ K.rel_tol m' = K.rel_tol m
   /\ K.min_peak_share m' = K.min_peak_share m)
  /\ (K.y m' = K.y m /\ K.z m' = K.z m)
  /\ (K.total_representative_days m' = K.total_representative_days m
      /\ K.each_non_extreme_day_is_represented m'
         = K.each_non_extreme_day_is_represented m
      /\ K.total_represented_days m' = K.total_represented_days m
      /\ K.represented_by_representative m'
         = K.represented_by_representative m)
  /\ (K.minimize_total_distance m' = K.minimize_total_distance m
      /\ forall s, K._total_distance m' s = K._total_distance m s)
  /\ (if K.preserve_total_values (K.options m)
      then K.relative_error_upper m' = K.relative_error_upper m
           /\ K.relative_error_lower m' = K.relative_error_lower m
      else active (K.relative_error_upper m') = false
           /\ active (K.relative_error_lower m') = false)
  /\ (if K.preserve_peak_values (K.options m)
      then K.preserve_peak m' = K.preserve_peak m
           /\ K.at_least_one_preserved m' = K.at_least_one_preserved m
           /\ K.w m' = K.w m
      else active (K.preserve_peak m') = false
           /\ active (K.at_least_one_preserved m') = false
           /\ domain (K.w m') = domain (K.w m)
           /\ forall pi,
                data (K.w m') !! pi
                = (fun _ => {| value := Some 0; fixed := true |})
                    <$> data (K.w m) !! pi).
Proof.
  destruct m as [[ptv ppv] ? ? ? ? ? ? ? ? ? ? ? vz vy vw ? ? ? ? ? ? ? ? ?].
  unfold K._apply_options.
  destruct ptv, ppv; cbn; repeat split; auto; intros pi; apply lookup_fmap.
Qed.

(** ** Solutions of an instance *)

Lemma Var_ok_iff `{Countable K} (x : Var K) (index : list K) (val : K -> Z) :
  Var_ok x index val = true <->
  forall k, k ∈ index ->
    within (domain x) (val k) = true /\
    forall vd, data x !! k = Some vd -> fixed vd = true ->
      value vd = Some (val k).
Proof.
  unfold Var_ok. rewrite forallb_elem_of.
  split; intros Hx k Hk; specialize (Hx k Hk).
  - apply andb_true_iff in Hx as [Hd Hf]. split; [done|].
    intros vd Hvd Hfix. rewrite Hvd, Hfix in Hf.
    by apply bool_decide_eq_true in Hf.
  - destruct Hx as [Hd Hf]. apply andb_true_iff. split; [done|].
    destruct (data x !! k) as [vd|]; [|done].
    destruct (fixed vd) eqn:Hfix; [|done].
    apply bool_decide_eq_true. by apply Hf.
Qed.

(** A free binary component only asks for 0/1 values. *)
Lemma Var_ok_construct `{Countable K} (index : list K) initialize val :
  Var_ok (Var_construct index Binary initialize) index val = true <->
  forall k, k ∈ index -> Spec.binary (val k).
Proof.
  rewrite Var_ok_iff. split; intros Hx k Hk.
  - apply within_Binary. by apply Hx.
  - split; [apply within_Binary; by apply Hx|].
    intros vd. rewrite lookup_Var_construct.
    destruct (decide (k ∈ index)); [|done]. by intros [= <-].
Qed.

(** A component fixed to 0 asks for the value 0 and nothing else. *)
Lemma Var_ok_fixed `{Countable K} (index : list K) initialize val :
  Var_ok (Var_fix 0 (Var_construct index Binary initialize)) index val = true
  <-> forall k, k ∈ index -> val k = 0.
Proof.
  rewrite Var_ok_iff. split; intros Hx k Hk.
  - destruct (Hx k Hk) as [_ Hf].
    specialize (Hf {| value := Some 0; fixed := true |}).
    rewrite lookup_Var_fix, lookup_Var_construct in Hf.
    destruct (decide (k ∈ index)); [|done].
    specialize (Hf eq_refl eq_refl). simpl in Hf. congruence.
  - rewrite (Hx k Hk). split; [done|].
    intros vd. rewrite lookup_Var_fix, lookup_Var_construct.
    destruct (decide (k ∈ index)); [|done]. by intros [= <-].
Qed.

Lemma Constraint_ok_active {K} (index : list K) (rule : K -> bool) :
  Constraint_ok Constraint_construct index rule = true <->
  forall k, k ∈ index -> rule k = true.
Proof. unfold Constraint_ok. simpl. apply forallb_elem_of. Qed.

Lemma Constraint_ok_scalar (rule : bool) :
  Constraint_ok Constraint_construct [tt] (fun _ => rule) = rule.
Proof. unfold Constraint_ok. simpl. by rewrite andb_true_r. Qed.

(** The four base rules, read as propositions. *)
Lemma base_constraints_iff (n_days n_clusters n_extreme_days : Z)
    (val_y : Z -> Z) (val_z : Z * Z -> Z) :
  Spec.base_constraints n_days n_clusters n_extreme_days val_y val_z <->
  (sumZ (fun i => val_y i) (RangeSet n_days) =? n_clusters) = true
  /\ (forall j, j ∈ RangeSet n_days ->
        (sumZ (fun i => val_z (i, j)) (RangeSet n_days) <=? 1) = true)
  /\ (sumZ (fun ij => val_z ij)
        (list_prod (RangeSet n_days) (RangeSet n_days))
      =? n_days - n_extreme_days) = true
  /\ (forall ij, ij ∈ list_prod (RangeSet n_days) (RangeSet n_days) ->
        (let '(i, j) := ij in val_z (i, j) <=? val_y i) = true).
Proof.
  split.
  - intros [Hc Hs Ht Hg]. repeat split.
    + by apply Z.eqb_eq.
    + intros j Hj. apply Z.leb_le. by apply Hs.
    + by apply Z.eqb_eq.
    + intros [i j] [Hi Hj]%elem_of_list_prod. apply Z.leb_le. by apply Hg.
  - intros (Hc & Hs & Ht & Hg). split.
    + by apply Z.eqb_eq.
    + intros j Hj. apply Z.leb_le. by apply Hs.
    + by apply Z.eqb_eq.
    + intros i j Hi Hj. apply Z.leb_le.
      apply (Hg (i, j)). by apply elem_of_list_prod.
Qed.

(** What a solution of a plain instance is. *)
Lemma plain_feasible_iff (d : P.Data) (m : P.Model) (s : P.Solution) :
  P.create_model d = Ok m ->
  P.feasible m s = true <->
  (forall i, i ∈ P.Days m -> Spec.binary (P.val_y s i))
  /\ (forall ij, ij ∈ P.Days_cross m -> Spec.binary (P.val_z s ij))
  /\ Spec.base_constraints (P.n_days m) (P.n_clusters m) (P.n_extreme_days m)
       (P.val_y s) (P.val_z s).
Proof.
  intros Hm. inv_create_plain Hm. subst m.
  unfold P.feasible, P.Days_cross, P.Days. cbn [P.z P.y P.n_days
    P.total_representative_days P.each_non_extreme_day_is_represented
    P.total_represented_days P.represented_by_representative].
  rewrite !andb_true_iff, !Constraint_ok_scalar, !Constraint_ok_active,
    !Var_ok_construct, base_constraints_iff.
  unfold P._total_representative_days, P._total_represented_days,
    P._each_non_extreme_day_is_represented, P._represented_by_representative,
    P.Days_cross, P.Days.
  cbn [P.n_days P.n_clusters P.n_extreme_days]. tauto.
Qed.

(** The components of a constrained instance that was created with the
    flags [ptv] and [ppv]. *)
Lemma created_components ptv ppv d m :
  K.create_model ptv ppv d = Ok m ->
  K.options m = {| K.preserve_total_values := ptv;
                   K.preserve_peak_values := ppv |}
  /\ K.z m = Var_construct (K.Days_cross m) Binary (Some 0)
  /\ K.y m = Var_construct (K.Days m) Binary (Some 0)
  /\ K.w m = (if ppv then Var_construct (K.Properties_Days m) Binary None
              else Var_fix 0 (Var_construct (K.Properties_Days m) Binary None))
  /\ K.total_representative_days m = Constraint_construct
  /\ K.each_non_extreme_day_is_represented m = Constraint_construct
  /\ K.total_represented_days m = Constraint_construct
  /\ K.represented_by_representative m = Constraint_construct
  /\ active (K.relative_error_upper m) = ptv
  /\ active (K.relative_error_lower m) = ptv
  /\ active (K.preserve_peak m) = ppv
  /\ active (K.at_least_one_preserved m) = ppv
  /\ K.minimize_total_distance m = Objective_construct.
Proof.
  intros Hm. inv_create Hm. subst.
  unfold K._apply_options, K.Days_cross, K.Properties_Days, K.Days.
  destruct ptv, ppv; cbn; repeat split; reflexivity.
Qed.

(** The build action leaves the parameters alone. *)
Lemma apply_options_parameters (m : K.Model) :
  K.n_days (K._apply_options m) = K.n_days m
  /\ K.n_clusters (K._apply_options m) = K.n_clusters m
  /\ K.n_extreme_days (K._apply_options m) = K.n_extreme_days m
  /\ K.Properties (K._apply_options m) = K.Properties m
  /\ K.distance (K._apply_options m) = K.distance m
  /\ K.x_daily_tot (K._apply_options m) = K.x_daily_tot m
  /\ K.x_daily_max (K._apply_options m) = K.x_daily_max m
  /\ K.x_max (K._apply_options m) = K.x_max m
  /\ K.x_total (K._apply_options m) = K.x_total m
  /\ K.rel_tol (K._apply_options m) = K.rel_tol m
  /\ K.min_peak_share (K._apply_options m) = K.min_peak_share m.
Proof.
  destruct m as [[ptv ppv] ? ? ? ? ? ? ? ? ? ? ? vz vy vw ? ? ? ? ? ? ? ? ?].
  unfold K._apply_options.
  destruct ptv, ppv; cbn; repeat split; reflexivity.
Qed.

Lemma within_PositiveIntegers v : within PositiveIntegers v = true <-> 0 < v.
Proof. apply Z.ltb_lt. Qed.

Lemma within_NonNegativeIntegers v :
  within NonNegativeIntegers v = true <-> 0 <= v.
Proof. apply Z.leb_le. Qed.

(** The parameters of a created instance are those of the data, and the
    counts are within their domains. *)
Lemma created_parameters ptv ppv d m :
  K.create_model ptv ppv d = Ok m ->
  (0 < K.n_days m /\ 0 < K.n_clusters m /\ 0 <= K.n_extreme_days m)
  /\ (K.data_n_days d = Some (K.n_days m)
      /\ K.data_n_clusters d = Some (K.n_clusters m)
      /\ K.n_extreme_days m = default 0 (K.data_n_extreme_days d))
  /\ K.Properties m = K.data_Properties d
  /\ K.distance m = K.data_distance d
  /\ K.x_daily_tot m = K.data_x_daily_tot d
  /\ K.x_daily_max m = K.data_x_daily_max d
  /\ K.x_max m = K.data_x_max d
  /\ K.rel_tol m = K.data_rel_tol d
  /\ K.min_peak_share m = K.data_min_peak_share d.
Proof.
  intros Hm. inv_create Hm. subst.
  repeat match goal with
  | E : Param_indexed _ _ _ = Ok _ |- _ =>
      apply Param_indexed_Ok in E as [-> _]
  end.
  match goal with
  | |- context [K._apply_options ?M] =>
      destruct (apply_options_parameters M)
        as (-> & -> & -> & -> & -> & -> & -> & -> & _ & -> & ->)
  end.
  cbn.
  repeat match goal with
  | E : Param_scalar _ _ _ _ = Ok _ |- _ =>
      apply Param_scalar_Ok in E as [? [?|[? ?]]]
  end; simplify_eq;
  repeat match goal with
  | E : within PositiveIntegers _ = true |- _ =>
      apply within_PositiveIntegers in E
  | E : within NonNegativeIntegers _ = true |- _ =>
      apply within_NonNegativeIntegers in E
  end;
  repeat match goal with E : K.data_n_extreme_days _ = _ |- _ =>
    rewrite E; clear E end;
  repeat split; done.
Qed.

Lemma preserve_peak_family (m : K.Model) (s : K.Solution) :
  (forall pi, pi ∈ K.Properties_Days m ->
     (let '(p, i) := pi in
      bool_decide (K._preserve_peak m s p i = Some true)) = true)
  <-> (forall p i, (p, i) ∈ K.Properties_Days m ->
         K._preserve_peak m s p i = Some true).
Proof.
  split.
  - intros Hpk p i Hpi. exact (bool_decide_eq_true_1 _ (Hpk (p, i) Hpi)).
  - intros Hpk [p i] Hpi. apply bool_decide_eq_true_2. by apply Hpk.
Qed.

(** What a solution of a constrained instance is. *)
Lemma constrained_feasible_iff ptv ppv d m (s : K.Solution) :
  K.create_model ptv ppv d = Ok m ->
  K.feasible m s = true <->
  (forall i, i ∈ K.Days m -> Spec.binary (K.val_y s i))
  /\ (forall ij, ij ∈ K.Days_cross m -> Spec.binary (K.val_z s ij))
  /\ (forall pi, pi ∈ K.Properties_Days m ->
        if ppv then Spec.binary (K.val_w s pi) else K.val_w s pi = 0)
  /\ Spec.base_constraints (K.n_days m) (K.n_clusters m) (K.n_extreme_days m)
       (K.val_y s) (K.val_z s)
  /\ (ptv = true ->
        (forall p, p ∈ K.Properties m ->
           K._relative_error_upper m s p = true)
        /\ (forall p, p ∈ K.Properties m ->
              K._relative_error_lower m s p = true))
  /\ (ppv = true ->
        (forall p i, (p, i) ∈ K.Properties_Days m ->
           K._preserve_peak m s p i = Some true)
        /\ (forall p, p ∈ K.Properties m ->
              K._at_least_one_preserved m s p = true)).
Proof.
  intros Hm.
  destruct (created_components _ _ _ _ Hm)
    as (_ & Hz & Hy & Hw & Hc1 & Hc2 & Hc3 & Hc4 & Hu & Hl & Hp & Ha & _).
  unfold K.feasible.
  rewrite Hz, Hy, Hw, Hc1, Hc2, Hc3, Hc4.
  unfold Constraint_ok at 5 6 7 8. rewrite Hu, Hl, Hp, Ha.
  rewrite !andb_true_iff, !Constraint_ok_scalar, !Constraint_ok_active,
    !Var_ok_construct, base_constraints_iff.
  unfold K._total_representative_days, K._total_represented_days,
    K._each_non_extreme_day_is_represented, K._represented_by_representative,
    K.Days_cross, K.Days.
  destruct ppv, ptv; rewrite ?Var_ok_construct, ?Var_ok_fixed,
    ?forallb_elem_of, ?preserve_peak_family;
    intuition (auto; discriminate).
Qed.

(** ** The base constraints *)

(** C4: every solution of an instance, plain or constrained, satisfies the
    four base constraint families: the [y] sum to [n_clusters]; for every
    day j the [z[i,j]] sum to at most 1; all the [z] sum to
    [n_days − n_extreme_days]; and [z[i,j] ≤ y[i]], so that [z[i,j] = 1]
    implies [y[i] = 1]. For the plain model these families, with the 0/1
    domains, are exactly what a solution has to satisfy. *)
Theorem C4_base_constraints :
  (forall d m s,
     P.create_model d = Ok m ->
     P.feasible m s = true <->
     (forall i, i ∈ P.Days m -> Spec.binary (P.val_y s i))
     /\ (forall ij, ij ∈ P.Days_cross m -> Spec.binary (P.val_z s ij))
     /\ Spec.base_constraints (P.n_days m) (P.n_clusters m)
          (P.n_extreme_days m) (P.val_y s) (P.val_z s))
  /\ (forall ptv ppv d m s,
        K.create_model ptv ppv d = Ok m ->
        K.feasible m s = true ->
        Spec.base_constraints (K.n_days m) (K.n_clusters m)
          (K.n_extreme_days m) (K.val_y s) (K.val_z s)
        /\ forall i j, i ∈ K.Days m -> j ∈ K.Days m ->
             K.val_z s (i, j) = 1 -> K.val_y s i = 1).
Proof.
  split.
  - intros d m s Hm. by apply plain_feasible_iff with d.
  - intros ptv ppv d m s Hm Hs.
    apply (constrained_feasible_iff _ _ _ _ s Hm) in Hs
      as (Hy & Hz & _ & Hbase & _).
    split; [done|]. intros i j Hi Hj Hij.
    pose proof (Spec.representative_gating _ _ _ _ _ Hbase i j Hi Hj).
    destruct (Hy i Hi); lia.
Qed.

Lemma C4_base_constraints_witness :
  Spec.base_constraints 3 3 0
    (P.val_y Spec.self_assignment) (P.val_z Spec.self_assignment)
  /\ K.val_y Examples.witness_on_day2 1 = 1.
Proof.
  split.
  - refine (proj2 (proj2 (proj1 (proj1 C4_base_constraints
              (Examples.three_days 1) Examples.three_days_plain
              Spec.self_assignment _) _)));
      vm_compute; reflexivity.
  - refine (proj2 (proj2 C4_base_constraints true true
              (Examples.two_days (1 # 2)) Examples.half_peak
              Examples.witness_on_day2 _ _) 1 2 _ _ _).
    + vm_compute; reflexivity.
    + vm_compute; reflexivity.
    + vm_compute; set_solver.
    + vm_compute; set_solver.
    + vm_compute; reflexivity.
Defined.

(** ** Day weights *)

Section Weights.
Context (ptv ppv : bool) (d : K.Data) (m : K.Model) (s : K.Solution).
Hypothesis Hm : K.create_model ptv ppv d = Ok m.
Hypothesis Hs : K.feasible m s = true.

Lemma feasible_z_binary i j :
  i ∈ K.Days m -> j ∈ K.Days m -> Spec.binary (K.val_z s (i, j)).
Proof using Hm Hs.
  intros Hi Hj.
  apply (constrained_feasible_iff _ _ _ _ s Hm) in Hs as (_ & Hz & _).
  apply Hz. by apply elem_of_list_prod.
Qed.

Lemma feasible_y_binary i : i ∈ K.Days m -> Spec.binary (K.val_y s i).
Proof using Hm Hs.
  intros Hi.
  apply (constrained_feasible_iff _ _ _ _ s Hm) in Hs as (Hy & _).
  by apply Hy.
Qed.

Lemma feasible_base :
  Spec.base_constraints (K.n_days m) (K.n_clusters m) (K.n_extreme_days m)
    (K.val_y s) (K.val_z s).
Proof using Hm Hs.
  by apply (constrained_feasible_iff _ _ _ _ s Hm) in Hs as (_ & _ & _ & Hb & _).
Qed.

(** The number of representatives that cover day [i] is 0 or 1, and it is 1
    exactly when the day is covered. *)
Lemma column_sum_covered i :
  i ∈ K.Days m ->
  sumZ (fun k => K.val_z s (k, i)) (K.Days m)
  = if Spec.covered m s i then 1 else 0.
Proof using Hm Hs.
  intros Hi.
  assert (forall k, k ∈ K.Days m -> Spec.binary (K.val_z s (k, i))) as Hbin
    by (intros k Hk; by apply feasible_z_binary).
  pose proof (Spec.single_coverage _ _ _ _ _ feasible_base i Hi) as Hle.
  pose proof (sumZ_binary_zero (fun k => K.val_z s (k, i)) _ Hbin) as Hzero.
  assert (0 <= sumZ (fun k => K.val_z s (k, i)) (K.Days m))
    by (apply sumZ_nonneg; intros k Hk; destruct (Hbin k Hk) as [-> | ->]; lia).
  unfold Spec.covered, K.Days in *.
  destruct (existsb _ _).
  - assert (sumZ (fun k => K.val_z s (k, i)) (RangeSet (K.n_days m)) <> 0)
      by (rewrite Hzero; done).
    lia.
  - by apply Hzero.
Qed.

(** A day that is not a representative represents nobody. *)
Lemma row_sum_non_representative i :
  i ∈ K.Days m -> K.val_y s i = 0 ->
  sumZ (fun j => K.val_z s (i, j)) (K.Days m) = 0.
Proof using Hm Hs.
  intros Hi Hy.
  rewrite (sumZ_ext _ (fun _ => 0)); [by rewrite sumZ_const|].
  intros j Hj.
  pose proof (Spec.representative_gating _ _ _ _ _ feasible_base i j Hi Hj).
  destruct (feasible_z_binary i j Hi Hj); lia.
Qed.

(** On a solution the weight of the source is the weight of the
    specification. *)
Lemma x_weight_spec i :
  i ∈ K.Days m -> K._x_weight m s i = Spec.weight m s i.
Proof using Hm Hs.
  intros Hi. unfold K._x_weight, Spec.weight, Spec.days_assigned.
  rewrite (column_sum_covered i Hi).
  rewrite (sumZ_binary_count (fun j => K.val_z s (i, j)))
    by (intros j Hj; by apply feasible_z_binary).
  destruct (Spec.covered m s i); lia.
Qed.

Lemma x_weight_nonneg i : i ∈ K.Days m -> 0 <= K._x_weight m s i.
Proof using Hm Hs.
  intros Hi. rewrite (x_weight_spec i Hi).
  unfold Spec.weight, Spec.days_assigned.
  destruct (Spec.covered m s i); lia.
Qed.

(** Only chosen days carry weight. *)
Lemma x_weight_not_chosen i :
  i ∈ K.Days m -> Spec.chosen_day m s i = false -> K._x_weight m s i = 0.
Proof using Hm Hs.
  intros Hi Hc. unfold Spec.chosen_day, Spec.representative in Hc.
  apply orb_false_iff in Hc as [Hy%Z.eqb_neq Hcov%negb_false_iff].
  unfold K._x_weight.
  rewrite (column_sum_covered i Hi), Hcov.
  rewrite row_sum_non_representative; [lia|done|].
  destruct (feasible_y_binary i Hi); [done|lia].
Qed.

End Weights.

(** The weights add up to the number of days, whatever the values of the
    assignment variables are. *)
Lemma x_weight_total (m : K.Model) (s : K.Solution) :
  0 <= K.n_days m -> sumZ (K._x_weight m s) (K.Days m) = K.n_days m.
Proof.
  intros Hn. unfold K._x_weight. cbv zeta.
  rewrite sumZ_add, sumZ_sub, sumZ_const.
  rewrite (sumZ_swap (fun i k => K.val_z s (k, i))).
  unfold K.Days. rewrite length_RangeSet by done. lia.
Qed.

(** C10, weight conservation: whatever values the assignment variables
    take, the day weights of [_x_weight] add up to [n_days]. So the
    estimated total of a property that has the same value [c] on every day
    equals its true total; and on a solution of an instance the weights are
    non-negative and sit on the chosen days only (representatives and
    extreme days), which therefore share exactly [n_days] units. *)
Theorem C10_weight_conservation (m : K.Model) (s : K.Solution) :
  0 <= K.n_days m ->
  sumZ (fun i => sumZ (fun j => K.val_z s (i, j)) (K.Days m)
                 + 1 - sumZ (fun k => K.val_z s (k, i)) (K.Days m))
       (K.Days m) = K.n_days m
  /\ sumZ (K._x_weight m s) (K.Days m) = K.n_days m
  /\ (forall p c,
        (forall i, i ∈ K.Days m -> (K.x_daily_tot m !!! (p, i) == c)%Q) ->
        (K._x_total_estimated m s p == K._x_total m p)%Q)
  /\ (forall ptv ppv d,
        K.create_model ptv ppv d = Ok m -> K.feasible m s = true ->
        forall i, i ∈ K.Days m ->
          0 <= K._x_weight m s i
          /\ (Spec.chosen_day m s i = false -> K._x_weight m s i = 0)).
Proof.
  intros Hn. pose proof (x_weight_total m s Hn) as Htotal.
  repeat split.
  - etransitivity; [|exact Htotal]. apply sumZ_ext. intros i _.
    unfold K._x_weight. lia.
  - done.
  - intros p c Hc. unfold K._x_total_estimated, K._x_total.
    rewrite (sumQ_ext _ (fun i => inject_Z (K._x_weight m s i) * c)%Q)
      by (intros i Hi; by rewrite (Hc i Hi)).
    rewrite (sumQ_ext (fun i => K.x_daily_tot m !!! (p, i)) (fun _ => c))
      by done.
    rewrite sumQ_weighted_const, sumQ_const, Htotal.
    unfold K.Days. by rewrite length_RangeSet.
  - by eapply x_weight_nonneg.
  - by eapply x_weight_not_chosen.
Qed.

Lemma C10_weight_conservation_witness :
  sumZ (K._x_weight Examples.half_peak
          Examples.witness_on_day2)
       (K.Days Examples.half_peak) = 2
  /\ 0 <= K._x_weight Examples.half_peak
            Examples.witness_on_day2 1.
Proof.
  split.
  - refine (proj1 (proj2 (C10_weight_conservation Examples.half_peak
                            Examples.witness_on_day2 _))).
    vm_compute. discriminate.
  - refine (proj1 (proj2 (proj2 (proj2 (C10_weight_conservation
              Examples.half_peak Examples.witness_on_day2 _)))
              true true (Examples.two_days (1 # 2)) _ _ 1 _)).
    + vm_compute. discriminate.
    + vm_compute; reflexivity.
    + vm_compute; reflexivity.
    + vm_compute; set_solver.
Defined.

(** ** Preservation of total values *)

(** The parameter [x_total] of a created instance holds, for every
    property, the value of its rule [_x_total]. *)
Lemma created_x_total ptv ppv d m p :
  K.create_model ptv ppv d = Ok m ->
  p ∈ K.Properties m ->
  K.x_total m !! p = Some (K._x_total m p).
Proof.
  intros Hm. unfold K.create_model in Hm. inv_bind Hm. subst m.
  rename a into m.
  destruct (apply_options_parameters m)
    as (Hn & _ & _ & HP & _ & Htot & _ & _ & Hx & _ & _).
  unfold K._x_total, K.Days. rewrite Hn, HP, Htot, Hx. clear Hn HP Htot Hx.
  unfold K.construct in E. inv_bind E. subst m.
  cbn [K.set_x_total K.x_total K.Properties K.n_days K.x_daily_tot].
  intros Hp. by rewrite lookup_list_to_map_rule.
Qed.

(** C3: with total-value preservation enabled, the model holds two separate
    active one-sided constraints, [relative_error_upper] and
    [relative_error_lower], which bound the estimated total
    Σ_i weight(i) × dailyTotal[p,i] of every property p from above by
    (1 + rel_tol[p]) × trueTotal[p] and from below by
    (1 − rel_tol[p]) × trueTotal[p]. trueTotal[p] = Σ_i dailyTotal[p,i] is a
    parameter computed from the input data when the instance is built. On
    every solution weight(i) is the number of days assigned to i, plus 1 if
    i is not assigned to any representative, and the estimated total lies
    within the two bounds. *)
Theorem C3_total_value_preservation ppv d m :
  K.create_model true ppv d = Ok m ->
  (active (K.relative_error_upper m) = true
   /\ active (K.relative_error_lower m) = true)
  /\ (K.x_daily_tot m = K.data_x_daily_tot d
      /\ forall p, p ∈ K.Properties m ->
           K.x_total m !! p
           = Some (sumQ (fun i => K.x_daily_tot m !!! (p, i)) (K.Days m)))
  /\ (forall s p,
        (K._relative_error_upper m s p = true <->
         (sumQ (fun i => inject_Z (K._x_weight m s i)
                         * K.x_daily_tot m !!! (p, i)) (K.Days m)
          <= (1 + K.rel_tol m !!! p) * K.x_total m !!! p)%Q)
        /\ (K._relative_error_lower m s p = true <->
            ((1 - K.rel_tol m !!! p) * K.x_total m !!! p
             <= sumQ (fun i => inject_Z (K._x_weight m s i)
                               * K.x_daily_tot m !!! (p, i)) (K.Days m))%Q))
  /\ (forall s,
        K.feasible m s = true ->
        (forall i, i ∈ K.Days m -> K._x_weight m s i = Spec.weight m s i)
        /\ forall p, p ∈ K.Properties m ->
             let estimate :=
               sumQ (fun i => (inject_Z (Spec.weight m s i)
                               * K.x_daily_tot m !!! (p, i))%Q) (K.Days m) in
             let true_total :=
               sumQ (fun i => K.x_daily_tot m !!! (p, i)) (K.Days m) in
             ((1 - K.rel_tol m !!! p) * true_total <= estimate
              /\ estimate <= (1 + K.rel_tol m !!! p) * true_total)%Q).
Proof.
  intros Hm.
  destruct (created_components _ _ _ _ Hm)
    as (_ & _ & _ & _ & _ & _ & _ & _ & Hu & Hl & _).
  destruct (created_parameters _ _ _ _ Hm)
    as (_ & _ & _ & _ & Htot & _).
  split; [done|]. split; [|split].
  - split; [done|]. intros p Hp. by rewrite (created_x_total _ _ _ _ _ Hm Hp).
  - intros s p. unfold K._relative_error_upper, K._relative_error_lower.
    rewrite !Qle_bool_iff. split; reflexivity.
  - intros s Hs. split.
    + intros i Hi. by eapply x_weight_spec.
    + intros p Hp estimate true_total.
      assert (K.x_total m !!! p = true_total) as Htrue.
      { rewrite lookup_total_alt, (created_x_total _ _ _ _ _ Hm Hp). done. }
      assert (K._x_total_estimated m s p == estimate)%Q as Hest.
      { apply sumQ_ext. intros i Hi.
        by rewrite (x_weight_spec _ _ _ _ _ Hm Hs i Hi). }
      apply (constrained_feasible_iff _ _ _ _ s Hm) in Hs
        as (_ & _ & _ & _ & Hrel & _).
      destruct (Hrel eq_refl) as [Hupper Hlower].
      specialize (Hupper p Hp). specialize (Hlower p Hp).
      unfold K._relative_error_upper in Hupper.
      unfold K._relative_error_lower in Hlower.
      rewrite Qle_bool_iff, Htrue, Hest in Hupper, Hlower.
      done.
Qed.

Lemma C3_total_value_preservation_witness :
  active (K.relative_error_upper Examples.half_peak) = true
  /\ K._x_weight Examples.half_peak
       Examples.witness_on_day2 1 = 2.
Proof.
  split.
  - refine (proj1 (proj1 (C3_total_value_preservation true
              (Examples.two_days (1 # 2)) Examples.half_peak _))).
    vm_compute; reflexivity.
  - etransitivity.
    + refine (proj1 (proj2 (proj2 (proj2 (C3_total_value_preservation true
                (Examples.two_days (1 # 2)) Examples.half_peak _)))
                Examples.witness_on_day2 _) 1 _).
      * vm_compute; reflexivity.
      * vm_compute; reflexivity.
      * vm_compute; set_solver.
    + vm_compute; reflexivity.
Defined.

(** ** The expression [chosen] and peak preservation *)

(** C1, the source against its own description. In the instance [two_days]
    day 1 is the representative and both days are assigned to it. Day 1 is a
    chosen day, and y[1] + (1 − Σ_k z[k,1]) is 1; the expression [_chosen]
    of the source sums z[1,j] over j instead and evaluates to 0. Day 2 is
    neither a representative nor an extreme day, and
    y[2] + (1 − Σ_k z[k,2]) is 0; [_chosen] evaluates to 1. *)
Theorem C1_chosen_sums_over_the_represented_days :
  K.create_model true true (Examples.two_days (1 # 2))
  = Ok Examples.half_peak
  /\ K.feasible Examples.half_peak Examples.witness_on_day2 = true
  /\ (Spec.representative Examples.witness_on_day2 1 = true
      /\ Spec.chosen_day Examples.half_peak Examples.witness_on_day2 1 = true
      /\ Spec.chosen Examples.half_peak Examples.witness_on_day2 1 = 1
      /\ K._chosen Examples.half_peak Examples.witness_on_day2 1 = 0)
  /\ (Spec.representative Examples.witness_on_day2 2 = false
      /\ Spec.covered Examples.half_peak Examples.witness_on_day2 2 = true
      /\ Spec.chosen_day Examples.half_peak Examples.witness_on_day2 2 = false
      /\ Spec.chosen Examples.half_peak Examples.witness_on_day2 2 = 0
      /\ K._chosen Examples.half_peak Examples.witness_on_day2 2 = 1).
Proof. vm_compute. repeat split. Qed.

(** [_chosen] differs from the expression of the specification by the
    difference between the days that [i] represents and the
    representatives that cover [i]. *)
Lemma chosen_source_vs_spec (m : K.Model) (s : K.Solution) (i : Z) :
  K._chosen m s i
  = Spec.chosen m s i
    + sumZ (fun k => K.val_z s (k, i)) (K.Days m)
    - sumZ (fun j => K.val_z s (i, j)) (K.Days m).
Proof. unfold K._chosen, Spec.chosen. lia. Qed.

(** On a solution, [_chosen] is 1 on every day that is not a
    representative, covered or not. *)
Lemma chosen_source_non_representative ptv ppv d m s i :
  K.create_model ptv ppv d = Ok m -> K.feasible m s = true ->
  i ∈ K.Days m -> K.val_y s i = 0 -> K._chosen m s i = 1.
Proof.
  intros Hm Hs Hi Hy. unfold K._chosen.
  rewrite (row_sum_non_representative _ _ _ _ _ Hm Hs i Hi Hy). lia.
Qed.

(** The expression of the specification is itself 2, not 1, on a
    representative that no representative covers. *)
Lemma chosen_spec_uncovered_representative :
  K.feasible Examples.two_clusters_model Examples.day1_represents_day2 = true
  /\ Spec.chosen_day Examples.two_clusters_model
       Examples.day1_represents_day2 1 = true
  /\ Spec.chosen Examples.two_clusters_model
       Examples.day1_represents_day2 1 = 2.
Proof. vm_compute. repeat split. Qed.

(** A sum of 0/1 terms that is at least 1 has a term equal to 1. *)
Lemma sumZ_binary_pos {A} (f : A -> Z) (l : list A) :
  (forall a, a ∈ l -> Spec.binary (f a)) ->
  1 <= sumZ f l -> exists a, a ∈ l /\ f a = 1.
Proof.
  induction l as [|a l IH]; intros Hf Hsum; simpl in Hsum; [lia|].
  destruct (Hf a ltac:(constructor)) as [Ha|Ha].
  - destruct IH as (b & Hb & Hfb).
    + intros b Hb. apply Hf. by constructor.
    + lia.
    + exists b. split; [by constructor|done].
  - exists a. split; [constructor|done].
Qed.

Lemma preserve_peak_iff (m : K.Model) (s : K.Solution) (p : string) (i : Z) :
  K._preserve_peak m s p i = Some true <->
  exists daily_max peak,
    K.x_daily_max m !! (p, i) = Some daily_max
    /\ K.x_max m !! p = Some peak
    /\ (0 <= daily_max * inject_Z (K._chosen m s i)
             - inject_Z (K.val_w s (p, i)) * K.min_peak_share m !!! p * peak)%Q.
Proof.
  unfold K._preserve_peak.
  destruct (K.x_daily_max m !! (p, i)) as [daily_max|]; simpl.
  - destruct (K.x_max m !! p) as [peak|]; simpl.
    + split.
      * intros [= Hle%Qle_bool_iff]. by exists daily_max, peak.
      * intros (? & ? & [= <-] & [= <-] & Hle%Qle_bool_iff). by rewrite Hle.
    + split; [done|]. by intros (? & ? & _ & ? & _).
  - split; [done|]. by intros (? & ? & ? & _).
Qed.

(** C2, as the model has it: with peak preservation enabled the peak
    constraint, dailyMax[p,i] × chosen(i) − w[p,i] × minPeakShare[p] ×
    globalMax[p] ≥ 0 for every property p and day i, and the constraint
    Σ_i w[p,i] ≥ 1 for every property p are active. So in every solution
    each property p has a day i with w[p,i] = 1, and every such day
    satisfies dailyMax[p,i] × chosen(i) ≥ minPeakShare[p] × globalMax[p],
    where chosen(i) is the expression of the model; chosen(i) is not 0
    there when the required peak minPeakShare[p] × globalMax[p] is
    positive. *)
Theorem C2_peak_preservation ptv d m :
  K.create_model ptv true d = Ok m ->
  (active (K.preserve_peak m) = true
   /\ active (K.at_least_one_preserved m) = true)
  /\ (forall s p i,
        K._preserve_peak m s p i = Some true <->
        exists daily_max peak,
          K.x_daily_max m !! (p, i) = Some daily_max
          /\ K.x_max m !! p = Some peak
          /\ (0 <= daily_max * inject_Z (K._chosen m s i)
                   - inject_Z (K.val_w s (p, i))
                     * K.min_peak_share m !!! p * peak)%Q)
  /\ (forall s p,
        K._at_least_one_preserved m s p = true <->
        1 <= sumZ (fun i => K.val_w s (p, i)) (K.Days m))
  /\ (forall s,
        K.feasible m s = true ->
        forall p, p ∈ K.Properties m ->
          (exists i, i ∈ K.Days m /\ K.val_w s (p, i) = 1)
          /\ (forall i, i ∈ K.Days m -> K.val_w s (p, i) = 1 ->
                exists daily_max peak,
                  K.x_daily_max m !! (p, i) = Some daily_max
                  /\ K.x_max m !! p = Some peak
                  /\ (K.min_peak_share m !!! p * peak
                      <= daily_max * inject_Z (K._chosen m s i))%Q
                  /\ ((0 < K.min_peak_share m !!! p * peak)%Q ->
                      K._chosen m s i <> 0))).
Proof.
  intros Hm.
  destruct (created_components _ _ _ _ Hm)
    as (_ & _ & _ & _ & _ & _ & _ & _ & _ & _ & Hp & Ha & _).
  split; [done|]. split; [|split].
  - intros s p i. apply preserve_peak_iff.
  - intros s p. unfold K._at_least_one_preserved. apply Z.leb_le.
  - intros s Hs p Hp'.
    apply (constrained_feasible_iff _ _ _ _ s Hm) in Hs
      as (_ & _ & Hw & _ & _ & Hpeak).
    destruct (Hpeak eq_refl) as [Hpk Hone]. split.
    + apply (sumZ_binary_pos (fun i => K.val_w s (p, i))).
      * intros i Hi. apply (Hw (p, i)). by apply elem_of_list_prod.
      * apply Z.leb_le. by apply Hone.
    + intros i Hi Hwi.
      assert ((p, i) ∈ K.Properties_Days m) as Hpi
        by by apply elem_of_list_prod.
      apply (Hpk p i), preserve_peak_iff in Hpi
        as (daily_max & peak & Hd & Hx & Hle).
      exists daily_max, peak. rewrite Hwi in Hle.
      change (inject_Z 1) with 1%Q in Hle.
      split; [done|]. split; [done|]. split; [lra|].
      intros Hpos Hz. rewrite Hz in Hle.
      change (inject_Z 0) with 0%Q in Hle. lra.
Qed.

Lemma C2_peak_preservation_witness :
  exists i, i ∈ K.Days Examples.half_peak
            /\ K.val_w Examples.witness_on_day2
                 (Examples.load, i) = 1.
Proof.
  refine (proj1 (proj2 (proj2 (proj2 (C2_peak_preservation true
            (Examples.two_days (1 # 2)) Examples.half_peak _)))
            Examples.witness_on_day2 _ Examples.load _)).
  - vm_compute; reflexivity.
  - vm_compute; reflexivity.
  - vm_compute; set_solver.
Defined.

(** The claim of C2 as the specification words it fails on an instance
    whose required peak share is zero, with both days as peak witnesses:
    day 1 is a witness although the chosen-ness [_chosen] of the model is 0
    there, and day 2 is a witness although it is neither a representative
    nor an extreme day (the expression of the specification is 0 there: a
    required peak of zero lets the peak constraint hold on such a day with
    either expression). *)
Lemma C2_witness_on_a_day_that_is_not_chosen :
  K.create_model true true (Examples.two_days 0) = Ok Examples.zero_peak
  /\ K.feasible Examples.zero_peak Examples.witness_on_both_days = true
  /\ (K.val_w Examples.witness_on_both_days (Examples.load, 1) = 1
      /\ K._chosen Examples.zero_peak Examples.witness_on_both_days 1 = 0)
  /\ (K.val_w Examples.witness_on_both_days (Examples.load, 2) = 1
      /\ Spec.chosen_day Examples.zero_peak Examples.witness_on_both_days 2
         = false
      /\ Spec.chosen Examples.zero_peak Examples.witness_on_both_days 2 = 0).
Proof. vm_compute. repeat split. Qed.

(** ** The plain model inside the constrained one *)

(** The plain builder, run on the part of the data it declares, builds the
    base components of the constrained instance. *)
Lemma plain_create_of_constrained ptv ppv d m :
  K.create_model ptv ppv d = Ok m ->
  P.create_model (K.plain_data d) = Ok (K.plain_model m).
Proof.
  intros Hm. inv_create Hm. subst.
  unfold P.create_model, K.plain_data.
  cbn [P.data_n_days P.data_n_clusters P.data_n_extreme_days
       P.data_distance].
  repeat match goal with
  | E : ?r = Ok _ |- context [mbind _ ?r] =>
      rewrite E; cbn [mbind result_bind]
  end.
  unfold K._apply_options. destruct ptv, ppv; reflexivity.
Qed.

Lemma Var_ok_fixed_forallb `{Countable K} (index : list K) initialize val :
  Var_ok (Var_fix 0 (Var_construct index Binary initialize)) index val
  = forallb (fun k => val k =? 0) index.
Proof.
  apply Bool.eq_iff_eq_true. rewrite Var_ok_fixed, forallb_elem_of.
  by setoid_rewrite Z.eqb_eq.
Qed.

Lemma is_free_fixed `{Countable K} (v : Z) (x : Var K) (k : K) :
  is_free (Var_fix v x) k = false.
Proof.
  unfold is_free. rewrite (lookup_Var_fix v x k). by destruct (data x !! k).
Qed.

Lemma filter_is_free_fixed `{Countable K} (v : Z) (x : Var K) (l : list K) :
  filter (fun k => is_free (Var_fix v x) k = true) l = [].
Proof.
  induction l as [|k l IH]; [done|].
  rewrite filter_cons, IH, decide_False; [done|].
  by rewrite is_free_fixed.
Qed.

(** C5: the constrained model built with both preservation flags false is,
    once its build action has run, the plain k-medoids model that
    [k_medoids_milp.create_model] builds from the same counts and
    distances. The active constraints are the four base families and no
    property-indexed one; the variables left to the solver are the [y] and
    [z], over the binary domain, every [w[p,i]] being fixed to 0; the
    solutions of the constrained instance are the solutions of the plain
    one, with all [w] at 0; and the objective is the same. *)
Theorem C5_plain_model_recovered d m :
  K.create_model false false d = Ok m ->
  P.create_model (K.plain_data d) = Ok (K.plain_model m)
  /\ (K.active_constraints m = P.active_constraints (K.plain_model m)
      /\ K.active_constraints m
         = ["total_representative_days";
            "each_non_extreme_day_is_represented";
            "total_represented_days";
            "represented_by_representative"]%string)
  /\ (K.free_variables m = P.free_variables (K.plain_model m)
      /\ forall pi, pi ∈ K.Properties_Days m ->
           data (K.w m) !! pi = Some {| value := Some 0; fixed := true |})
  /\ (forall s,
        K.feasible m s
        = P.feasible (K.plain_model m) (K.plain_solution s)
          && forallb (fun pi => K.val_w s pi =? 0) (K.Properties_Days m))
  /\ (K.minimize_total_distance m
      = P.minimize_total_distance (K.plain_model m)
      /\ forall s,
           K._total_distance m s
           = P._total_distance (K.plain_model m) (K.plain_solution s)).
Proof.
  intros Hm.
  destruct (created_components _ _ _ _ Hm)
    as (_ & Hz & Hy & Hw & Hc1 & Hc2 & Hc3 & Hc4 & Hu & Hl & Hp & Ha & _).
  split; [by eapply plain_create_of_constrained|].
  split; [|split; [|split]].
  - unfold K.active_constraints, P.active_constraints.
    cbn [K.plain_model P.total_representative_days
         P.each_non_extreme_day_is_represented P.total_represented_days
         P.represented_by_representative].
    rewrite Hu, Hl, Hp, Ha, Hc1, Hc2, Hc3, Hc4. by split.
  - split.
    + unfold K.free_variables, P.free_variables.
      rewrite Hw, filter_is_free_fixed. simpl. by rewrite app_nil_r.
    + intros pi Hpi. rewrite Hw, lookup_Var_fix, lookup_Var_construct.
      by rewrite decide_True.
  - intros s. unfold K.feasible.
    unfold Constraint_ok at 5 6 7 8. rewrite Hu, Hl, Hp, Ha, Hw.
    rewrite Var_ok_fixed_forallb, !andb_true_r.
    change (P.feasible (K.plain_model m) (K.plain_solution s))
      with (Var_ok (K.z m) (K.Days_cross m) (K.val_z s)
            && Var_ok (K.y m) (K.Days m) (K.val_y s)
            && Constraint_ok (K.total_representative_days m) [tt]
                 (fun _ => K._total_representative_days m s)
            && Constraint_ok (K.each_non_extreme_day_is_represented m)
                 (K.Days m) (K._each_non_extreme_day_is_represented m s)
            && Constraint_ok (K.total_represented_days m) [tt]
                 (fun _ => K._total_represented_days m s)
            && Constraint_ok (K.represented_by_representative m)
                 (K.Days_cross m)
                 (fun '(i, j) => K._represented_by_representative m s i j)).
    repeat match goal with
    | |- context [Var_ok ?x ?l ?v] => generalize (Var_ok x l v)
    | |- context [Constraint_ok ?c ?l ?r] => generalize (Constraint_ok c l r)
    | |- context [forallb ?f ?l] => generalize (forallb f l)
    end.
    intros [] [] [] [] [] [] []; reflexivity.
  - split; [reflexivity|]. intros s. reflexivity.
Qed.

Lemma C5_plain_model_recovered_witness :
  P.create_model (K.plain_data (Examples.two_days (1 # 2)))
  = Ok (K.plain_model Examples.no_options).
Proof.
  refine (proj1 (C5_plain_model_recovered (Examples.two_days (1 # 2))
                   Examples.no_options _)).
  vm_compute; reflexivity.
Defined.

(** ** Errors at construction *)

(** What the rules have read when a construction succeeds. *)
Lemma created_reads ptv ppv d m :
  K.create_model ptv ppv d = Ok m ->
  (forall pi, pi ∈ K.Properties_Days m -> is_Some (K.x_daily_tot m !! pi))
  /\ (forall p, p ∈ K.Properties m -> is_Some (K.rel_tol m !! p))
  /\ (forall p, p ∈ K.Properties m -> is_Some (K.min_peak_share m !! p))
  /\ (forall ij, ij ∈ K.Days_cross m -> is_Some (K.distance m !! ij)).
Proof.
  intros Hm.
  destruct (created_parameters _ _ _ _ Hm) as ((Hpos & _) & _).
  revert Hpos. unfold K.create_model in Hm. inv_bind Hm. subst m.
  rename a into m. unfold K.Properties_Days, K.Days_cross, K.Days.
  destruct (apply_options_parameters m)
    as (-> & _ & _ & -> & -> & -> & _ & _ & _ & -> & ->).
  unfold K.construct in E. inv_bind E. subst m.
  cbn [K.set_x_total K.n_days K.Properties K.distance K.x_daily_tot
       K.rel_tol K.min_peak_share].
  repeat match goal with
  | E : for_each _ _ = Ok _ |- _ => rewrite for_each_Ok in E
  end.
  intros Hpos. repeat split.
  - intros pi Hpi. by eapply Param_read_Ok, E7.
  - intros p Hp. by eapply Param_read_Ok, E10.
  - intros p Hp.
    apply (Param_read_Ok "min_peak_share" _ _ tt), (E11 (p, 1)).
    apply elem_of_list_prod. split; [done|]. apply elem_of_RangeSet. lia.
  - intros ij Hij. by eapply Param_read_Ok, E12.
Qed.

(** The plain builder checks the counts in the same way. *)
Lemma plain_created_counts d m :
  P.create_model d = Ok m ->
  P.data_n_days d = Some (P.n_days m) /\ 0 < P.n_days m
  /\ P.data_n_clusters d = Some (P.n_clusters m) /\ 0 < P.n_clusters m
  /\ P.n_extreme_days m = default 0 (P.data_n_extreme_days d)
  /\ 0 <= P.n_extreme_days m.
Proof.
  intros Hm. inv_create_plain Hm. subst. cbn.
  repeat match goal with
  | E : Param_scalar _ _ _ _ = Ok _ |- _ =>
      apply Param_scalar_Ok in E as [? [?|[? ?]]]
  end; simplify_eq;
  repeat match goal with
  | E : within PositiveIntegers _ = true |- _ =>
      apply within_PositiveIntegers in E
  | E : within NonNegativeIntegers _ = true |- _ =>
      apply within_NonNegativeIntegers in E
  end;
  repeat match goal with E : P.data_n_extreme_days _ = _ |- _ =>
    rewrite E; clear E end;
  repeat split; done.
Qed.

(** With more clusters than days the cardinality constraint cannot hold. *)
Lemma too_many_clusters (n_days n_clusters : Z) (val_y : Z -> Z) :
  0 <= n_days < n_clusters ->
  (forall i, i ∈ RangeSet n_days -> Spec.binary (val_y i)) ->
  sumZ val_y (RangeSet n_days) <> n_clusters.
Proof.
  intros Hn Hy.
  assert (sumZ val_y (RangeSet n_days) <= Z.of_nat (length (RangeSet n_days))).
  { apply sumZ_le_length. intros i Hi. destruct (Hy i Hi); lia. }
  rewrite length_RangeSet in *; lia.
Qed.

(** C8, as the builders have it: a count outside its domain (no or a
    non-positive [n_days] or [n_clusters], a negative [n_extreme_days]) and
    a missing value of an immutable parameter that a rule reads (a
    distance, or for a declared property a daily total, a tolerance or a
    minimum peak share, whatever the flags are) make the construction
    raise an error. [n_clusters > n_days] is not checked: such an instance
    is built, and it has no solution. *)
Theorem C8_construction_errors ptv ppv d :
  ((forall n, K.data_n_days d = Some n -> n <= 0)
   \/ (forall n, K.data_n_clusters d = Some n -> n <= 0)
   \/ (exists n, K.data_n_extreme_days d = Some n /\ n < 0)
   \/ (exists n i j, K.data_n_days d = Some n
         /\ 1 <= i <= n /\ 1 <= j <= n
         /\ K.data_distance d !! (i, j) = None)
   \/ (exists n p i, K.data_n_days d = Some n
         /\ p ∈ K.data_Properties d /\ 1 <= i <= n
         /\ K.data_x_daily_tot d !! (p, i) = None)
   \/ (exists p, p ∈ K.data_Properties d /\ K.data_rel_tol d !! p = None)
   \/ (exists p, p ∈ K.data_Properties d
         /\ K.data_min_peak_share d !! p = None) ->
   exists e, K.create_model ptv ppv d = Raise e)
  /\ ((forall n, K.data_n_days d = Some n -> n <= 0)
      \/ (forall n, K.data_n_clusters d = Some n -> n <= 0)
      \/ (exists n, K.data_n_extreme_days d = Some n /\ n < 0)
      \/ (exists n i j, K.data_n_days d = Some n
            /\ 1 <= i <= n /\ 1 <= j <= n
            /\ K.data_distance d !! (i, j) = None) ->
      exists e, P.create_model (K.plain_data d) = Raise e)
  /\ (forall m,
        K.create_model ptv ppv d = Ok m ->
        K.n_days m < K.n_clusters m ->
        forall s, K.feasible m s = false).
Proof.
  split; [|split].
  - intros Hbad.
    destruct (K.create_model ptv ppv d) as [m|e] eqn:Hm; [exfalso|eauto].
    destruct (created_parameters _ _ _ _ Hm)
      as ((Hd & Hc & He) & (Hnd & Hnc & Hne) & HP & Hdist & Htot & _ & _
          & Htol & Hshare).
    destruct (created_reads _ _ _ _ Hm) as (Rtot & Rtol & Rshare & Rdist).
    unfold K.Properties_Days, K.Days_cross, K.Days in *.
    rewrite HP, ?Hdist, ?Htot, ?Htol, ?Hshare in *.
    destruct Hbad as [H|[H|[(n & H & ?)|[(n & i & j & H & ? & ? & Hnone)
      |[(n & p & i & H & ? & ? & Hnone)|[(p & ? & Hnone)|(p & ? & Hnone)]]]]]].
    + specialize (H _ Hnd). lia.
    + specialize (H _ Hnc). lia.
    + rewrite H in Hne. simpl in Hne. lia.
    + assert (n = K.n_days m) as -> by congruence.
      destruct (Rdist (i, j)) as [q Hq].
      { apply elem_of_list_prod. rewrite !elem_of_RangeSet. lia. }
      congruence.
    + assert (n = K.n_days m) as -> by congruence.
      destruct (Rtot (p, i)) as [q Hq].
      { apply elem_of_list_prod. rewrite elem_of_RangeSet. split; [done|lia]. }
      congruence.
    + destruct (Rtol p) as [q Hq]; [done|congruence].
    + destruct (Rshare p) as [q Hq]; [done|congruence].
  - intros Hbad'.
    destruct (P.create_model (K.plain_data d)) as [m|e] eqn:Hm;
      [exfalso|eauto].
    destruct (plain_created_counts _ _ Hm)
      as (Hnd & Hd & Hnc & Hc & Hne & He).
    unfold K.plain_data in *.
    cbn [P.data_n_days P.data_n_clusters P.data_n_extreme_days] in *.
    destruct Hbad' as [H|[H|[(n & H & ?)|(n & i & j & H & ? & ? & Hnone)]]].
    + specialize (H _ Hnd). lia.
    + specialize (H _ Hnc). lia.
    + rewrite H in Hne. simpl in Hne. lia.
    + assert (n = P.n_days m) as -> by congruence.
      inv_create_plain Hm. subst m. cbn [P.n_days] in *.
      apply Param_indexed_Ok in E2 as [-> _].
      rewrite for_each_Ok in E3.
      specialize (E3 (i, j)).
      rewrite Param_read_Ok in E3.
      destruct E3 as [q Hq].
      { apply elem_of_list_prod. rewrite !elem_of_RangeSet. lia. }
      cbn [P.data_distance] in Hq. congruence.
  - intros m Hm Hlt s.
    destruct (K.feasible m s) eqn:Hs; [exfalso|done].
    destruct (created_parameters _ _ _ _ Hm) as ((Hd & _) & _).
    apply (constrained_feasible_iff _ _ _ _ s Hm) in Hs
      as (Hy & _ & _ & Hbase & _).
    apply (too_many_clusters (K.n_days m) (K.n_clusters m) (K.val_y s));
      [lia|done|].
    apply (Spec.cardinality _ _ _ _ _ Hbase).
Qed.

Lemma C8_construction_errors_witness :
  (exists e, K.create_model false false Examples.no_days = Raise e)
  /\ K.feasible Examples.more_clusters_than_days_model
       Examples.day1_represents_day2 = false.
Proof.
  split.
  - refine (proj1 (C8_construction_errors false false Examples.no_days) _).
    left. intros n [= <-]. lia.
  - refine (proj2 (proj2 (C8_construction_errors false false
              Examples.more_clusters_than_days))
              Examples.more_clusters_than_days_model _ _
              Examples.day1_represents_day2).
    + vm_compute; reflexivity.
    + vm_compute; reflexivity.
Defined.

(** The claim of C8 as the specification words it fails: an input with
    more clusters than days is accepted by both builders. *)
Lemma C8_more_clusters_than_days_is_accepted :
  K.create_model false false Examples.more_clusters_than_days
  = Ok Examples.more_clusters_than_days_model
  /\ K.n_clusters Examples.more_clusters_than_days_model
     > K.n_days Examples.more_clusters_than_days_model
  /\ is_Ok (P.create_model (K.plain_data Examples.more_clusters_than_days))
     = true.
Proof. vm_compute. repeat split. Qed.

(** ** Three days, three clusters *)

Lemma elem_of_RangeSet_3 (i : Z) : i ∈ RangeSet 3 <-> i = 1 \/ i = 2 \/ i = 3.
Proof. rewrite elem_of_RangeSet. lia. Qed.

Lemma self_assignment_binary (ij : Z * Z) :
  Spec.binary (P.val_z Spec.self_assignment ij).
Proof.
  unfold Spec.binary, Spec.self_assignment. simpl.
  case_bool_decide; auto.
Qed.

(** The self-assignment satisfies the base constraints of the scenario. *)
Lemma self_assignment_base :
  Spec.base_constraints 3 3 0
    (P.val_y Spec.self_assignment) (P.val_z Spec.self_assignment).
Proof.
  split.
  - reflexivity.
  - intros j [-> | [-> | ->]]%elem_of_RangeSet_3; vm_compute; discriminate.
  - reflexivity.
  - intros i j _ _. simpl. case_bool_decide; lia.
Qed.

(** With a zero diagonal the self-assignment costs nothing. *)
Lemma self_assignment_distance (m : P.Model) :
  (forall i, i ∈ P.Days m -> (P.distance m !!! (i, i) == 0)%Q) ->
  (P._total_distance m Spec.self_assignment == 0)%Q.
Proof.
  intros Hdiag. unfold P._total_distance. apply sumQ_zero.
  intros [i j] [Hi Hj]%elem_of_list_prod. simpl.
  case_bool_decide as Hij; simpl in Hij.
  - subst j. rewrite (Hdiag i Hi). ring.
  - change (inject_Z 0) with 0%Q. ring.
Qed.

(** Non-negative distances give a non-negative objective on 0/1 values. *)
Lemma total_distance_nonneg (m : P.Model) (s : P.Solution) :
  (forall ij, ij ∈ P.Days_cross m -> (0 <= P.distance m !!! ij)%Q) ->
  (forall ij, ij ∈ P.Days_cross m -> Spec.binary (P.val_z s ij)) ->
  (0 <= P._total_distance m s)%Q.
Proof.
  intros Hd Hz. unfold P._total_distance. apply sumQ_nonneg.
  intros ij Hij. specialize (Hd ij Hij).
  destruct (Hz ij Hij) as [-> | ->].
  - change (inject_Z 0) with 0%Q. lra.
  - change (inject_Z 1) with 1%Q. lra.
Qed.

(** C9, as the model has it: with [n_days = 3], [n_clusters = 3] and
    [n_extreme_days = 0], every solution of the plain model has
    [y[i] = 1] for all i and assigns every day j to exactly one
    representative (Σ_i z[i,j] = 1). The self-assignment ([z[i,i] = 1],
    [z[i,j] = 0] for i ≠ j) is one of the solutions; its objective is
    distance[1,1] + distance[2,2] + distance[3,3], which is 0 when the
    diagonal of the distance matrix is zero, and it is then optimal when
    the distances are non-negative. *)
Theorem C9_three_days_three_clusters d m :
  P.create_model d = Ok m ->
  P.n_days m = 3 -> P.n_clusters m = 3 -> P.n_extreme_days m = 0 ->
  (forall s, P.feasible m s = true ->
     (forall i, i ∈ P.Days m -> P.val_y s i = 1)
     /\ (forall j, j ∈ P.Days m ->
           sumZ (fun i => P.val_z s (i, j)) (P.Days m) = 1))
  /\ P.feasible m Spec.self_assignment = true
  /\ (P._total_distance m Spec.self_assignment
      == P.distance m !!! (1%Z, 1%Z) + P.distance m !!! (2%Z, 2%Z)
         + P.distance m !!! (3%Z, 3%Z))%Q
  /\ ((forall i, i ∈ P.Days m -> (P.distance m !!! (i, i) == 0)%Q) ->
      (P._total_distance m Spec.self_assignment == 0)%Q
      /\ ((forall ij, ij ∈ P.Days_cross m -> (0 <= P.distance m !!! ij)%Q) ->
          forall s, P.feasible m s = true ->
            (P._total_distance m Spec.self_assignment
             <= P._total_distance m s)%Q)).
Proof.
  intros Hm Hn Hc He. split; [|split; [|split]].
  - intros s Hs.
    apply (plain_feasible_iff _ _ s Hm) in Hs as (Hy & Hz & [Hcard Hcov Htot _]).
    unfold P.Days_cross, P.Days in *. rewrite Hn, ?Hc, ?He in *.
    rewrite sumZ_list_prod, sumZ_swap in Htot.
    pose proof (Hy 1) as Hy1. pose proof (Hy 2) as Hy2.
    pose proof (Hy 3) as Hy3.
    pose proof (Hcov 1) as Hcov1. pose proof (Hcov 2) as Hcov2.
    pose proof (Hcov 3) as Hcov3.
    rewrite elem_of_RangeSet_3 in Hy1, Hy2, Hy3, Hcov1, Hcov2, Hcov3.
    change (RangeSet 3) with [1; 2; 3] in *. cbn [sumZ] in *.
    unfold Spec.binary in *.
    split.
    + intros i [-> | [-> | ->]]%elem_of_RangeSet_3; lia.
    + intros j [-> | [-> | ->]]%elem_of_RangeSet_3; lia.
  - apply (plain_feasible_iff _ _ _ Hm). rewrite Hn, Hc, He.
    split; [by right|]. split; [|apply self_assignment_base].
    intros ij _. apply self_assignment_binary.
  - unfold P._total_distance, P.Days_cross, P.Days. rewrite Hn.
    change (list_prod (RangeSet 3) (RangeSet 3))
      with [(1, 1); (1, 2); (1, 3); (2, 1); (2, 2); (2, 3);
            (3, 1); (3, 2); (3, 3)].
    cbn [sumQ Spec.self_assignment P.val_z fst snd].
    repeat case_bool_decide; try done.
    change (inject_Z 1) with 1%Q. change (inject_Z 0) with 0%Q. ring.
  - intros Hdiag. pose proof (self_assignment_distance m Hdiag) as Hzero.
    split; [done|]. intros Hpos s Hs. rewrite Hzero.
    apply (plain_feasible_iff _ _ s Hm) in Hs as (_ & Hz & _).
    by apply total_distance_nonneg.
Qed.

Lemma C9_three_days_three_clusters_witness :
  P.val_y Examples.all_to_day1 2 = 1
  /\ P.feasible Examples.three_days_plain Spec.self_assignment = true.
Proof.
  assert (P.create_model (Examples.three_days 1)
          = Ok Examples.three_days_plain) as Hm by (vm_compute; reflexivity).
  split.
  - refine (proj1 (proj1 (C9_three_days_three_clusters
              (Examples.three_days 1) Examples.three_days_plain Hm
              eq_refl eq_refl eq_refl) Examples.all_to_day1 _) 2 _).
    + vm_compute; reflexivity.
    + vm_compute; set_solver.
  - exact (proj1 (proj2 (C9_three_days_three_clusters
              (Examples.three_days 1) Examples.three_days_plain Hm
              eq_refl eq_refl eq_refl))).
Defined.

(** The claim of C9 as the specification words it fails: with every
    distance equal to 1, the assignment of all three days to day 1 is a
    solution in which day 2 is not its own representative, and no
    solution, the self-assignment included, has objective 0. *)
Lemma C9_not_forced_to_self_assignment :
  P.create_model (Examples.three_days 1) = Ok Examples.three_days_plain
  /\ (P.n_days Examples.three_days_plain = 3
      /\ P.n_clusters Examples.three_days_plain = 3
      /\ P.n_extreme_days Examples.three_days_plain = 0)
  /\ P.feasible Examples.three_days_plain Examples.all_to_day1 = true
  /\ P.val_z Examples.all_to_day1 (2, 2) = 0
  /\ P.val_z Examples.all_to_day1 (1, 2) = 1
  /\ (P._total_distance Examples.three_days_plain Examples.all_to_day1
      == 3)%Q
  /\ P.feasible Examples.three_days_plain Spec.self_assignment = true
  /\ (P._total_distance Examples.three_days_plain Spec.self_assignment
      == 3)%Q.
Proof. vm_compute. repeat split. Qed.

(** * Further properties of the code *)

(** ** [get_pyomo_input_dictionary] *)

Section InputDictionaryFacts.
Context `{Countable Key} {V : Type}.
Implicit Types (data_dict : gmap string (U.Field Key V)).

(** What the loop makes of one field. *)
Lemma wrap_fold_lookup data_dict (k : string) :
  map_fold U.wrap_item data_dict data_dict !! k
  = match data_dict !! k with
    | Some (U.Scalar a) => Some (U.Indexed {[None := a]})
    | Some (U.Indexed d) => Some (U.Indexed d)
    | None => None
    end.
Proof.
  assert (forall m : gmap string (U.Field Key V),
    m ⊆ data_dict ->
    forall k, map_fold U.wrap_item data_dict m !! k
      = match m !! k with
        | Some (U.Scalar a) => Some (U.Indexed {[None := a]})
        | Some (U.Indexed d) => Some (U.Indexed d)
        | None => data_dict !! k
        end) as Hfold.
  { intros m. apply (map_fold_weak_ind (fun r m =>
      m ⊆ data_dict -> forall k, r !! k = match m !! k with
        | Some (U.Scalar a) => Some (U.Indexed {[None := a]})
        | Some (U.Indexed d) => Some (U.Indexed d)
        | None => data_dict !! k
        end)); clear m.
    - intros _ j. by rewrite lookup_empty.
    - intros i x m r Hi IH Hsub j.
      assert (data_dict !! i = Some x) as Hx.
      { eapply lookup_weaken; [|exact Hsub]. apply lookup_insert_eq. }
      assert (m ⊆ data_dict) as Hm.
      { etransitivity; [|exact Hsub]. by apply insert_subseteq. }
      specialize (IH Hm).
      destruct (decide (i = j)) as [<-|Hne].
      + rewrite lookup_insert_eq. destruct x as [a|dx]; simpl.
        * apply lookup_insert_eq.
        * by rewrite IH, Hi.
      + rewrite lookup_insert_ne by done. destruct x as [a|dx]; simpl.
        * rewrite lookup_insert_ne by done. apply IH.
        * apply IH. }
  rewrite (Hfold data_dict) by done. by destruct (data_dict !! k).
Qed.

(** X1: the call wraps every field that is not a dict into [{None: v}],
    keeps every field that is a dict, and adds or removes no key; the
    returned value has the single key [namespace], which holds the updated
    dictionary. *)
Theorem X1_input_dictionary_fields data_dict (namespace : option string) :
  (forall k,
     (U.get_pyomo_input_dictionary data_dict namespace).1 !! k
     = match data_dict !! k with
       | Some (U.Scalar a) => Some (U.Indexed {[None := a]})
       | Some (U.Indexed d) => Some (U.Indexed d)
       | None => None
       end)
  /\ (forall k v,
        (U.get_pyomo_input_dictionary data_dict namespace).1 !! k = Some v ->
        U.is_dict v = true)
  /\ (forall ns,
        (U.get_pyomo_input_dictionary data_dict namespace).2 !! ns
        = if decide (namespace = ns)
          then Some (U.get_pyomo_input_dictionary data_dict namespace).1
          else None).
Proof.
  unfold U.get_pyomo_input_dictionary. cbn [fst snd]. repeat split.
  - intros k. apply wrap_fold_lookup.
  - intros k v. rewrite wrap_fold_lookup.
    destruct (data_dict !! k) as [[a|d]|]; by intros [= <-].
  - intros ns. apply lookup_singleton.
Qed.

(** X2: a second call leaves the dictionary as the first call left it,
    whatever the two namespaces are. *)
Theorem X2_input_dictionary_idempotent data_dict (ns1 ns2 : option string) :
  (U.get_pyomo_input_dictionary
     (U.get_pyomo_input_dictionary data_dict ns1).1 ns2).1
  = (U.get_pyomo_input_dictionary data_dict ns1).1.
Proof.
  unfold U.get_pyomo_input_dictionary. cbn [fst]. apply map_eq. intros k.
  rewrite !wrap_fold_lookup. by destruct (data_dict !! k) as [[a|d]|].
Qed.

End InputDictionaryFacts.

(** ** [extract_indexed_expression_values] *)

Lemma lookup_extract_values `{Countable K} {V} (index : list K)
    (expr : K -> V) (k : K) :
  U.extract_indexed_expression_values index expr !! k
  = if decide (k ∈ index) then Some (expr k) else None.
Proof.
  unfold U.extract_indexed_expression_values.
  induction index as [|i index IH].
  - rewrite fmap_nil, list_to_map_nil, lookup_empty.
    case_decide; [set_solver|done].
  - rewrite fmap_cons, list_to_map_cons. cbn [fst snd].
    destruct (decide (i = k)) as [->|Hne].
    + rewrite lookup_insert_eq. rewrite decide_True by set_solver. done.
    + rewrite lookup_insert_ne, IH by done.
      destruct (decide (k ∈ index)).
      * by rewrite decide_True by set_solver.
      * rewrite decide_False; [done|].
        by intros [?|?]%elem_of_cons.
Qed.

(** Over an index set without repetition, the values of the extracted dict
    add up to the sum of the expression over the index set. *)
Lemma sum_extract_values `{Countable K} (index : list K) (expr : K -> Z) :
  NoDup index ->
  U.sum_values (U.extract_indexed_expression_values index expr)
  = sumZ expr index.
Proof.
  intros Hnd. unfold U.sum_values, U.extract_indexed_expression_values.
  rewrite map_fold_foldr.
  transitivity (foldr (uncurry (fun (_ : K) (v acc : Z) => v + acc)) 0
                  ((fun ind => (ind, expr ind)) <$> index)).
  - apply (foldr_permutation_proper (=)).
    + solve_proper.
    + intros [k1 v1] [k2 v2] b. simpl. lia.
    + apply map_to_list_to_map.
      replace (((fun ind => (ind, expr ind)) <$> index).*1) with index;
        [done|].
      clear Hnd. induction index as [|i index IH]; [done|].
      rewrite !fmap_cons. by rewrite <- IH.
  - clear Hnd. induction index as [|i index IH]; simpl; [done|].
    f_equal. exact IH.
Qed.

(** X3: the dict extracted from the day weights [x_weight] has exactly one
    entry per day, the weight of that day, and its values add up to
    [n_days], whatever the values of the variables are. *)
Theorem X3_extracted_weights (m : K.Model) (s : K.Solution) :
  0 <= K.n_days m ->
  (forall i,
     U.extract_indexed_expression_values (K.Days m) (K._x_weight m s) !! i
     = if decide (1 <= i <= K.n_days m) then Some (K._x_weight m s i)
       else None)
  /\ U.sum_values
       (U.extract_indexed_expression_values (K.Days m) (K._x_weight m s))
     = K.n_days m.
Proof.
  intros Hn. split.
  - intros i. rewrite lookup_extract_values.
    destruct (decide (i ∈ K.Days m)) as [Hi|Hi];
      unfold K.Days in Hi; rewrite elem_of_RangeSet in Hi.
    + by rewrite decide_True.
    + by rewrite decide_False.
  - rewrite sum_extract_values by apply NoDup_seqZ.
    by apply x_weight_total.
Qed.

Lemma X3_extracted_weights_witness :
  U.sum_values
    (U.extract_indexed_expression_values (K.Days Examples.half_peak)
       (K._x_weight Examples.half_peak Examples.witness_on_day2))
  = 2.
Proof.
  refine (proj2 (X3_extracted_weights Examples.half_peak
                   Examples.witness_on_day2 _)).
  vm_compute. discriminate.
Defined.

(** ** [extract_results] and the initial values *)

Lemma elem_of_RangeSet_2 (i : Z) : i ∈ RangeSet 2 <-> i = 1 \/ i = 2.
Proof. rewrite elem_of_RangeSet. lia. Qed.

Lemma elem_of_RangeSet_4 (i : Z) :
  i ∈ RangeSet 4 <-> i = 1 \/ i = 2 \/ i = 3 \/ i = 4.
Proof. rewrite elem_of_RangeSet. lia. Qed.

Lemma get_values_construct `{Countable K} (index : list K) d initialize k :
  U.get_values (Var_construct index d initialize) !! k
  = if decide (k ∈ index) then Some initialize else None.
Proof.
  unfold U.get_values. rewrite lookup_fmap, lookup_Var_construct.
  by destruct (decide (k ∈ index)).
Qed.

(** The components [y] and [z] of a plain instance, as they are built. *)
Lemma plain_created_variables d m :
  P.create_model d = Ok m ->
  P.y m = Var_construct (P.Days m) Binary (Some 0)
  /\ P.z m = Var_construct (P.Days_cross m) Binary (Some 0).
Proof. intros Hm. inv_create_plain Hm. by subst. Qed.

(** X4: on an instance that has just been created, plain or constrained,
    [extract_results] gives the value 0 for [y] at every day and for [z] at
    every row and column that are days, and has no other entry. *)
Theorem X4_extract_results_initial :
  (forall d m,
     P.create_model d = Ok m ->
     (forall i,
        (U.extract_results (P.y m) (P.z m)).1 !! i
        = if decide (1 <= i <= P.n_days m) then Some (Some 0) else None)
     /\ (forall i j,
           (U.extract_results (P.y m) (P.z m)).2 !! i ≫= (.!! j)
           = if decide ((1 <= i <= P.n_days m) /\ (1 <= j <= P.n_days m))
             then Some (Some 0) else None))
  /\ (forall ptv ppv d m,
        K.create_model ptv ppv d = Ok m ->
        (forall i,
           (U.extract_results (K.y m) (K.z m)).1 !! i
           = if decide (1 <= i <= K.n_days m) then Some (Some 0) else None)
        /\ (forall i j,
              (U.extract_results (K.y m) (K.z m)).2 !! i ≫= (.!! j)
              = if decide ((1 <= i <= K.n_days m) /\ (1 <= j <= K.n_days m))
                then Some (Some 0) else None)).
Proof.
  assert (forall n (vy : Var Z) (vz : Var (Z * Z)),
    vy = Var_construct (RangeSet n) Binary (Some 0) ->
    vz = Var_construct (list_prod (RangeSet n) (RangeSet n)) Binary (Some 0) ->
    (forall i,
       (U.extract_results vy vz).1 !! i
       = if decide (1 <= i <= n) then Some (Some 0) else None)
    /\ (forall i j,
          (U.extract_results vy vz).2 !! i ≫= (.!! j)
          = if decide ((1 <= i <= n) /\ (1 <= j <= n))
            then Some (Some 0) else None)) as Hgen.
  { intros n vy vz -> ->. unfold U.extract_results, U.unstack. cbn [fst snd].
    split.
    - intros i. rewrite get_values_construct.
      destruct (decide (i ∈ RangeSet n)) as [Hi|Hi];
        rewrite elem_of_RangeSet in Hi.
      + by rewrite decide_True.
      + by rewrite decide_False.
    - intros i j. rewrite lookup_map_curry, get_values_construct.
      destruct (decide ((i, j) ∈ list_prod (RangeSet n) (RangeSet n)))
        as [Hij|Hij];
        rewrite elem_of_list_prod, !elem_of_RangeSet in Hij.
      + by rewrite decide_True.
      + by rewrite decide_False. }
  split.
  - intros d m Hm. destruct (plain_created_variables _ _ Hm) as [Hy Hz].
    by apply Hgen.
  - intros ptv ppv d m Hm.
    destruct (created_components _ _ _ _ Hm) as (_ & Hz & Hy & _).
    by apply Hgen.
Qed.

Lemma X4_extract_results_initial_witness :
  (U.extract_results (P.y More.four_days_model)
     (P.z More.four_days_model)).1 !! 3 = Some (Some 0)
  /\ (U.extract_results (K.y Examples.half_peak)
        (K.z Examples.half_peak)).2 !! 1 ≫= (.!! 2) = Some (Some 0).
Proof.
  split.
  - refine (proj1 (proj1 X4_extract_results_initial More.four_days
                     More.four_days_model _) 3).
    vm_compute; reflexivity.
  - refine (proj2 (proj2 X4_extract_results_initial true true
                     (Examples.two_days (1 # 2)) Examples.half_peak _) 1 2).
    vm_compute; reflexivity.
Defined.

(** X5: the values the variables are initialised with are never a
    solution: an assignment that leaves every [y[i]] at its initial value
    violates the cardinality constraint, in the plain and in the
    constrained model. *)
Theorem X5_initial_values_infeasible :
  (forall d m s,
     P.create_model d = Ok m ->
     (forall i, i ∈ P.Days m ->
        U.get_values (P.y m) !! i = Some (Some (P.val_y s i))) ->
     P.feasible m s = false)
  /\ (forall ptv ppv d m s,
        K.create_model ptv ppv d = Ok m ->
        (forall i, i ∈ K.Days m ->
           U.get_values (K.y m) !! i = Some (Some (K.val_y s i))) ->
        K.feasible m s = false).
Proof.
  assert (forall n c (vy : Z -> Z),
    0 < c ->
    (forall i, i ∈ RangeSet n ->
       U.get_values (Var_construct (RangeSet n) Binary (Some 0)) !! i
       = Some (Some (vy i))) ->
    sumZ vy (RangeSet n) <> c) as Hgen.
  { intros n c vy Hc Hinit.
    rewrite (sumZ_ext vy (fun _ => 0)); [rewrite sumZ_const; lia|].
    intros i Hi. specialize (Hinit i Hi).
    rewrite get_values_construct, decide_True in Hinit by done.
    congruence. }
  split.
  - intros d m s Hm Hinit.
    destruct (P.feasible m s) eqn:Hs; [exfalso|done].
    destruct (plain_created_variables _ _ Hm) as [Hy _].
    destruct (plain_created_counts _ _ Hm) as (_ & _ & _ & Hc & _).
    apply (plain_feasible_iff _ _ s Hm) in Hs as (_ & _ & [Hcard _ _ _]).
    rewrite Hy in Hinit. by apply (Hgen (P.n_days m) (P.n_clusters m) (P.val_y s)).
  - intros ptv ppv d m s Hm Hinit.
    destruct (K.feasible m s) eqn:Hs; [exfalso|done].
    destruct (created_components _ _ _ _ Hm) as (_ & _ & Hy & _).
    destruct (created_parameters _ _ _ _ Hm) as ((_ & Hc & _) & _).
    apply (constrained_feasible_iff _ _ _ _ s Hm) in Hs
      as (_ & _ & _ & [Hcard _ _ _] & _).
    rewrite Hy in Hinit. by apply (Hgen (K.n_days m) (K.n_clusters m) (K.val_y s)).
Qed.

Lemma X5_initial_values_infeasible_witness :
  P.feasible More.four_days_model More.all_zero = false
  /\ K.feasible Examples.two_clusters_model
       {| K.val_z := fun _ => 0; K.val_y := fun _ => 0;
          K.val_w := fun _ => 0 |} = false.
Proof.
  split.
  - refine (proj1 X5_initial_values_infeasible More.four_days
              More.four_days_model More.all_zero _ _).
    + vm_compute; reflexivity.
    + intros i [-> | [-> | [-> | ->]]]%elem_of_RangeSet_4;
        vm_compute; reflexivity.
  - refine (proj2 X5_initial_values_infeasible false false
              Examples.two_clusters Examples.two_clusters_model _ _ _).
    + vm_compute; reflexivity.
    + intros i [-> | ->]%elem_of_RangeSet_2; vm_compute; reflexivity.
Defined.

(** ** When an instance has a solution *)

Lemma RangeSet_succ (n : Z) :
  0 <= n -> RangeSet (Z.succ n) = RangeSet n ++ [1 + n].
Proof.
  intros Hn. unfold RangeSet.
  replace (Z.succ n) with (n + 1) by lia.
  rewrite seqZ_app by lia. f_equal.
Qed.

(** Counting the days up to [k] among the days 1..[n]. *)
Lemma sumZ_first_days (k n : Z) :
  0 <= n -> 0 <= k ->
  sumZ (fun i => if i <=? k then 1 else 0) (RangeSet n) = Z.min k n.
Proof.
  intros Hn Hk. revert n Hn. apply natlike_ind.
  - simpl. lia.
  - intros n Hn IH. rewrite RangeSet_succ, sumZ_app, IH by done.
    simpl. destruct (Z.leb_spec (1 + n) k); lia.
Qed.

(** A sum that only day 1 contributes to. *)
Lemma sumZ_day_one (b n : Z) :
  1 <= n -> sumZ (fun i => if i =? 1 then b else 0) (RangeSet n) = b.
Proof.
  intros Hn. unfold RangeSet. rewrite seqZ_cons by lia. simpl.
  rewrite (sumZ_ext _ (fun _ => 0)); [rewrite sumZ_const; lia|].
  intros i Hi%elem_of_seqZ. destruct (Z.eqb_spec i 1); [lia|done].
Qed.

(** The solution [first_days] satisfies the base constraints whenever the
    counts leave room for one. *)
Lemma first_days_base (m : P.Model) :
  0 < P.n_clusters m <= P.n_days m ->
  0 <= P.n_extreme_days m <= P.n_days m ->
  (forall i, Spec.binary (P.val_y (More.first_days m) i))
  /\ (forall ij, Spec.binary (P.val_z (More.first_days m) ij))
  /\ Spec.base_constraints (P.n_days m) (P.n_clusters m) (P.n_extreme_days m)
       (P.val_y (More.first_days m)) (P.val_z (More.first_days m)).
Proof.
  intros Hc He. unfold More.first_days, Spec.binary. cbn [P.val_y P.val_z].
  split; [|split].
  - intros i. destruct (i <=? P.n_clusters m); auto.
  - intros ij. destruct ((ij.1 =? 1) && _); auto.
  - assert (forall j,
      sumZ (fun i => if (i =? 1) && (j <=? P.n_days m - P.n_extreme_days m)
                     then 1 else 0) (RangeSet (P.n_days m))
      = if j <=? P.n_days m - P.n_extreme_days m then 1 else 0) as Hcol.
    { intros j.
      rewrite <- (sumZ_day_one
        (if j <=? P.n_days m - P.n_extreme_days m then 1 else 0)
        (P.n_days m)) by lia.
      apply sumZ_ext. intros i _.
      by destruct (i =? 1), (j <=? P.n_days m - P.n_extreme_days m). }
    split.
    + rewrite sumZ_first_days by lia. lia.
    + intros j _. cbn [fst snd]. rewrite Hcol.
      destruct (j <=? P.n_days m - P.n_extreme_days m); lia.
    + rewrite sumZ_list_prod, sumZ_swap. cbn [fst snd].
      rewrite (sumZ_ext _ (fun j =>
        if j <=? P.n_days m - P.n_extreme_days m then 1 else 0))
        by (intros j _; apply Hcol).
      rewrite sumZ_first_days by lia. lia.
    + intros i j _ _. cbn [fst snd].
      destruct (Z.eqb_spec i 1) as [->|Hne]; simpl.
      * destruct (Z.leb_spec 1 (P.n_clusters m)); [|lia].
        destruct (j <=? P.n_days m - P.n_extreme_days m); lia.
      * destruct (i <=? P.n_clusters m); lia.
Qed.

(** The counts of an instance that has a solution. *)
Lemma base_constraints_counts (n c e : Z) (vy : Z -> Z) (vz : Z * Z -> Z) :
  0 <= n ->
  (forall i, i ∈ RangeSet n -> Spec.binary (vy i)) ->
  (forall ij, ij ∈ list_prod (RangeSet n) (RangeSet n) -> Spec.binary (vz ij)) ->
  Spec.base_constraints n c e vy vz ->
  c <= n /\ e <= n.
Proof.
  intros Hn Hy Hz [Hcard _ Htot _]. split.
  - destruct (Z.le_gt_cases c n) as [|Hgt]; [done|].
    by destruct (too_many_clusters n c vy).
  - assert (0 <= sumZ vz (list_prod (RangeSet n) (RangeSet n))); [|lia].
    apply sumZ_nonneg. intros ij Hij. destruct (Hz ij Hij); lia.
Qed.

(** X6: a plain instance has a solution exactly when [n_clusters] and
    [n_extreme_days] do not exceed [n_days]; one solution is then to make
    the first [n_clusters] days representatives and to assign the first
    [n_days − n_extreme_days] days to day 1. The same holds for the
    constrained instance built without preservation options. *)
Theorem X6_solvable_instances :
  (forall d m,
     P.create_model d = Ok m ->
     ((exists s, P.feasible m s = true)
      <-> P.n_clusters m <= P.n_days m /\ P.n_extreme_days m <= P.n_days m)
     /\ (P.n_clusters m <= P.n_days m ->
         P.n_extreme_days m <= P.n_days m ->
         P.feasible m (More.first_days m) = true))
  /\ (forall d m,
        K.create_model false false d = Ok m ->
        (exists s, K.feasible m s = true)
        <-> K.n_clusters m <= K.n_days m /\ K.n_extreme_days m <= K.n_days m).
Proof.
  split.
  - intros d m Hm.
    destruct (plain_created_counts _ _ Hm) as (_ & Hn & _ & Hc & _ & He).
    assert (P.n_clusters m <= P.n_days m ->
            P.n_extreme_days m <= P.n_days m ->
            P.feasible m (More.first_days m) = true) as Hfirst.
    { intros Hcn Hen. apply (plain_feasible_iff _ _ _ Hm).
      destruct (first_days_base m) as (Hy & Hz & Hbase); [lia|lia|].
      auto. }
    split; [|done]. split.
    + intros [s Hs].
      apply (plain_feasible_iff _ _ s Hm) in Hs as (Hy & Hz & Hbase).
      apply (base_constraints_counts (P.n_days m) _ _ (P.val_y s) (P.val_z s));
        [lia|exact Hy|exact Hz|exact Hbase].
    + intros [Hcn Hen]. exists (More.first_days m). by apply Hfirst.
  - intros d m Hm.
    destruct (created_parameters _ _ _ _ Hm) as ((Hn & Hc & He) & _).
    split.
    + intros [s Hs].
      apply (constrained_feasible_iff _ _ _ _ s Hm) in Hs
        as (Hy & Hz & _ & Hbase & _).
      apply (base_constraints_counts (K.n_days m) _ _ (K.val_y s) (K.val_z s));
        [lia|exact Hy|exact Hz|exact Hbase].
    + intros [Hcn Hen].
      destruct (first_days_base (K.plain_model m)) as (Hy & Hz & Hbase);
        cbn [K.plain_model P.n_days P.n_clusters P.n_extreme_days];
        [lia|lia|].
      exists {| K.val_z := P.val_z (More.first_days (K.plain_model m));
                K.val_y := P.val_y (More.first_days (K.plain_model m));
                K.val_w := fun _ => 0 |}.
      apply (constrained_feasible_iff _ _ _ _ _ Hm).
      cbn [K.val_z K.val_y K.val_w].
      split; [by intros i _|]. split; [by intros ij _|].
      split; [done|]. split; [exact Hbase|]. by split.
Qed.

Lemma X6_solvable_instances_witness :
  P.feasible More.four_days_model (More.first_days More.four_days_model)
  = true
  /\ exists s, K.feasible Examples.two_clusters_model s = true.
Proof.
  split.
  - refine (proj2 (proj1 X6_solvable_instances More.four_days
                     More.four_days_model _) _ _).
    + vm_compute; reflexivity.
    + vm_compute; discriminate.
    + vm_compute; discriminate.
  - refine (proj2 (proj2 X6_solvable_instances Examples.two_clusters
                     Examples.two_clusters_model _) _).
    + vm_compute; reflexivity.
    + split; vm_compute; discriminate.
Defined.

(** ** What a solution looks like *)

Lemma sumZ_indicator_count {A} (b : A -> bool) (l : list A) :
  sumZ (fun a => if b a then 1 else 0) l
  + Z.of_nat (length (filter (fun a => b a = false) l))
  = Z.of_nat (length l).
Proof.
  induction l as [|a l IH]; [done|].
  rewrite filter_cons. simpl sumZ.
  destruct (b a) eqn:Hb.
  - rewrite decide_False by done. simpl length. lia.
  - rewrite decide_True by done. simpl length. lia.
Qed.

(** X7: in every solution of a constrained instance exactly [n_clusters]
    days are representatives, and exactly [n_extreme_days] days are covered
    by no representative. *)
Theorem X7_representatives_and_extreme_days ptv ppv d m s :
  K.create_model ptv ppv d = Ok m ->
  K.feasible m s = true ->
  Z.of_nat (length (filter (fun i => K.val_y s i = 1) (K.Days m)))
  = K.n_clusters m
  /\ Z.of_nat (length (filter (fun j => Spec.covered m s j = false)
                         (K.Days m)))
     = K.n_extreme_days m.
Proof.
  intros Hm Hs.
  pose proof (feasible_base _ _ _ _ _ Hm Hs) as [Hcard _ Htot _].
  destruct (created_parameters _ _ _ _ Hm) as ((Hn & _) & _).
  split.
  - rewrite <- Hcard.
    symmetry. apply (sumZ_binary_count (K.val_y s)).
    intros i Hi. by eapply feasible_y_binary.
  - rewrite sumZ_list_prod, sumZ_swap in Htot.
    rewrite (sumZ_ext _ (fun j => if Spec.covered m s j then 1 else 0))
      in Htot by (intros j Hj; by eapply column_sum_covered).
    pose proof (sumZ_indicator_count (Spec.covered m s)
                  (RangeSet (K.n_days m))) as Hcount.
    rewrite length_RangeSet in Hcount by lia.
    unfold K.Days. lia.
Qed.

Lemma X7_representatives_and_extreme_days_witness :
  Z.of_nat (length (filter
    (fun j => Spec.covered Examples.two_clusters_model
                Examples.day1_represents_day2 j = false)
    (K.Days Examples.two_clusters_model))) = 1.
Proof.
  refine (proj2 (X7_representatives_and_extreme_days false false
            Examples.two_clusters Examples.two_clusters_model
            Examples.day1_represents_day2 _ _)).
  - vm_compute; reflexivity.
  - vm_compute; reflexivity.
Defined.

(** X8: what the expression [chosen] of the source is on a solution: 1 on
    every day that is not a representative, and 2 minus the number of days
    it represents on a representative. *)
Theorem X8_chosen_on_solutions ptv ppv d m s i :
  K.create_model ptv ppv d = Ok m ->
  K.feasible m s = true ->
  i ∈ K.Days m ->
  K._chosen m s i
  = if Spec.representative s i then 2 - Spec.days_assigned m s i else 1.
Proof.
  intros Hm Hs Hi. unfold Spec.representative, Spec.days_assigned.
  destruct (feasible_y_binary _ _ _ _ _ Hm Hs i Hi) as [Hy|Hy];
    rewrite Hy; simpl.
  - by eapply chosen_source_non_representative.
  - unfold K._chosen.
    rewrite (sumZ_binary_count (fun j => K.val_z s (i, j)))
      by (intros j Hj; by eapply feasible_z_binary).
    lia.
Qed.

Lemma X8_chosen_on_solutions_witness :
  K._chosen Examples.half_peak Examples.witness_on_day2 1 = 0.
Proof.
  etransitivity.
  - refine (X8_chosen_on_solutions true true (Examples.two_days (1 # 2))
              Examples.half_peak Examples.witness_on_day2 1 _ _ _).
    + vm_compute; reflexivity.
    + vm_compute; reflexivity.
    + vm_compute; set_solver.
  - vm_compute; reflexivity.
Defined.

(** ** The inputs a builder accepts *)

Lemma Param_scalar_data name d initialize v :
  within d v = true -> Param_scalar name d initialize (Some v) = Ok v.
Proof. intros Hd. unfold Param_scalar. by rewrite Hd. Qed.

Lemma Param_scalar_default name d data :
  within d (default 0 data) = true ->
  Param_scalar name d (Some 0) data = Ok (default 0 data).
Proof. intros Hd. unfold Param_scalar. destruct data; simpl in *; by rewrite Hd. Qed.

Lemma Param_indexed_keys `{Countable K} name (index : list K) data :
  (forall k, is_Some (data !! k) -> k ∈ index) ->
  Param_indexed name index data = Ok data.
Proof.
  intros Hkeys. unfold Param_indexed. rewrite bool_decide_eq_true_2; [done|].
  intros k q Hq. apply Hkeys. by eexists.
Qed.

Lemma for_each_read `{Countable K} name (P : gmap K Q) (index : list K) :
  (forall k, k ∈ index -> is_Some (P !! k)) ->
  for_each index (Param_read name P) = Ok tt.
Proof.
  intros Hread. apply for_each_Ok. intros k Hk.
  by apply Param_read_Ok, Hread.
Qed.

(** The data of an instance that was built names no index outside the
    index sets. *)
Lemma created_keys ptv ppv d m :
  K.create_model ptv ppv d = Ok m ->
  (forall ij, is_Some (K.data_distance d !! ij) -> ij ∈ K.Days_cross m)
  /\ (forall pi, is_Some (K.data_x_daily_tot d !! pi) ->
        pi ∈ K.Properties_Days m)
  /\ (forall pi, is_Some (K.data_x_daily_max d !! pi) ->
        pi ∈ K.Properties_Days m)
  /\ (forall p, is_Some (K.data_x_max d !! p) -> p ∈ K.Properties m)
  /\ (forall p, is_Some (K.data_rel_tol d !! p) -> p ∈ K.Properties m)
  /\ (forall p, is_Some (K.data_min_peak_share d !! p) ->
        p ∈ K.Properties m).
Proof.
  intros Hm. unfold K.create_model in Hm. inv_bind Hm. subst m.
  rename a into m. unfold K.Properties_Days, K.Days_cross, K.Days.
  destruct (apply_options_parameters m) as (-> & _ & _ & -> & _).
  unfold K.construct in E. inv_bind E. subst m.
  cbn [K.set_x_total K.n_days K.Properties].
  repeat match goal with
  | E : Param_indexed _ _ _ = Ok _ |- _ =>
      apply Param_indexed_Ok in E as [_ E]
  end.
  repeat split; assumption.
Qed.

(** The constrained builder succeeds on exactly the well-formed data. *)
Lemma create_model_Ok_iff ptv ppv d :
  (exists m, K.create_model ptv ppv d = Ok m) <-> More.well_formed d.
Proof.
  split.
  - intros [m Hm].
    destruct (created_parameters _ _ _ _ Hm)
      as ((Hd & Hc & He) & (Hnd & Hnc & Hne) & HP & Hdist & Htot & _ & _
          & Htol & Hshare).
    destruct (created_reads _ _ _ _ Hm) as (Rtot & Rtol & Rshare & Rdist).
    destruct (created_keys _ _ _ _ Hm)
      as (Kdist & Ktot & Kmax & Kxmax & Ktol & Kshare).
    unfold K.Properties_Days, K.Days_cross, K.Days in *.
    rewrite HP, ?Hdist, ?Htot, ?Htol, ?Hshare in *.
    exists (K.n_days m), (K.n_clusters m).
    rewrite <- Hne. repeat split; auto.
  - intros (n & c & Hn & Hnpos & Hc & Hcpos & He & Hdist & Htot & Hmax
            & Hxmax & Htol & Hshare).
    unfold K.create_model, K.construct. rewrite Hn, Hc.
    rewrite !Param_scalar_data by by apply Z.ltb_lt.
    cbn [mbind result_bind].
    rewrite Param_scalar_default by by apply Z.leb_le.
    cbn [mbind result_bind].
    rewrite !Param_indexed_keys
      by (try (intros k Hk; by apply Hdist); try (intros k Hk; by apply Htot);
          try (intros k Hk; by apply Htol); try (intros k Hk; by apply Hshare);
          done).
    cbn [mbind result_bind].
    rewrite (for_each_read "x_daily_tot") by (intros k Hk; by apply Htot).
    cbn [mbind result_bind].
    rewrite (for_each_read "rel_tol") by (intros k Hk; by apply Htol).
    cbn [mbind result_bind].
    rewrite (proj2 (for_each_Ok
               (list_prod (K.data_Properties d) (RangeSet n))
               (fun pi => Param_read "min_peak_share"
                            (K.data_min_peak_share d) pi.1) tt)).
    2:{ intros [p i] [Hp _]%elem_of_list_prod.
        by apply (Param_read_Ok "min_peak_share" _ _ tt), Hshare. }
    cbn [mbind result_bind].
    rewrite (for_each_read "distance") by (intros k Hk; by apply Hdist).
    cbn [mbind result_bind]. by eexists.
Qed.

(** X9: the constrained builder builds an instance exactly when the data
    are well formed: [n_days] and [n_clusters] are given and positive,
    [n_extreme_days] is not negative, no parameter has a value outside its
    index set, and the distance of every pair of days and the daily total,
    tolerance and minimum peak share of every declared property are given.
    The two preservation flags have no part in it. *)
Theorem X9_accepted_data ptv ppv d :
  ((exists m, K.create_model ptv ppv d = Ok m) <-> More.well_formed d)
  /\ is_Ok (K.create_model ptv ppv d) = is_Ok (K.create_model false false d).
Proof.
  split; [apply create_model_Ok_iff|].
  destruct (K.create_model ptv ppv d) as [m|e] eqn:Hm;
    destruct (K.create_model false false d) as [m'|e'] eqn:Hm'; try done.
  - assert (exists m, K.create_model false false d = Ok m) as [? ?];
      [|congruence].
    apply create_model_Ok_iff, (create_model_Ok_iff ptv ppv). eauto.
  - assert (exists m, K.create_model ptv ppv d = Ok m) as [? ?];
      [|congruence].
    apply create_model_Ok_iff, (create_model_Ok_iff false false). eauto.
Qed.

Lemma X9_accepted_data_witness :
  More.well_formed (Examples.two_days (1 # 2)).
Proof.
  destruct (X9_accepted_data true true (Examples.two_days (1 # 2)))
    as [[Hwf _] _].
  apply Hwf. exists Examples.half_peak. vm_compute; reflexivity.
Defined.

(** The plain rules on the base part of a constrained instance. *)
Lemma plain_feasible_of_constrained ptv ppv d m s :
  K.create_model ptv ppv d = Ok m ->
  K.feasible m s = true ->
  P.feasible (K.plain_model m) (K.plain_solution s) = true.
Proof.
  intros Hm Hs.
  apply (plain_feasible_iff _ _ _ (plain_create_of_constrained _ _ _ _ Hm)).
  apply (constrained_feasible_iff _ _ _ _ s Hm) in Hs
    as (Hy & Hz & _ & Hbase & _).
  auto.
Qed.

(** X10: whatever the preservation flags are, the base part of a
    constrained instance is the instance the plain builder builds from the
    same counts and distances; every solution of the constrained instance,
    read on [y] and [z], is a solution of that plain instance, with the
    same objective value. *)
Theorem X10_constrained_solutions_are_plain_solutions ptv ppv d m :
  K.create_model ptv ppv d = Ok m ->
  P.create_model (K.plain_data d) = Ok (K.plain_model m)
  /\ forall s,
       K.feasible m s = true ->
       P.feasible (K.plain_model m) (K.plain_solution s) = true
       /\ K._total_distance m s
          = P._total_distance (K.plain_model m) (K.plain_solution s).
Proof.
  intros Hm. split; [by eapply plain_create_of_constrained|].
  intros s Hs. split; [by eapply plain_feasible_of_constrained|reflexivity].
Qed.

Lemma X10_constrained_solutions_are_plain_solutions_witness :
  P.feasible (K.plain_model Examples.half_peak)
    (K.plain_solution Examples.witness_on_day2) = true.
Proof.
  refine (proj1 (proj2 (X10_constrained_solutions_are_plain_solutions
            true true (Examples.two_days (1 # 2)) Examples.half_peak _)
            Examples.witness_on_day2 _)).
  - vm_compute; reflexivity.
  - vm_compute; reflexivity.
Defined.

(** ** Bounds on the estimated total *)

Lemma sumQ_le {A} (f g : A -> Q) (l : list A) :
  (forall a, a ∈ l -> (f a <= g a)%Q) -> (sumQ f l <= sumQ g l)%Q.
Proof.
  induction l as [|a l IH]; intros Hfg; simpl; [lra|].
  assert (f a <= g a)%Q by (apply Hfg; constructor).
  assert (sumQ f l <= sumQ g l)%Q
    by (apply IH; intros b Hb; apply Hfg; by constructor).
  lra.
Qed.

Lemma inject_Z_nonneg (v : Z) : 0 <= v -> (0 <= inject_Z v)%Q.
Proof. intros Hv. change 0%Q with (inject_Z 0). by rewrite <- Zle_Qle. Qed.

(** X11: on every solution the estimated total of a property lies between
    [n_days] times its smallest and [n_days] times its largest daily total:
    the day weights are non-negative and add up to [n_days]. *)
Theorem X11_estimated_total_bounds ptv ppv d m s p (lo hi : Q) :
  K.create_model ptv ppv d = Ok m ->
  K.feasible m s = true ->
  (forall i, i ∈ K.Days m ->
     (lo <= K.x_daily_tot m !!! (p, i) <= hi)%Q) ->
  (inject_Z (K.n_days m) * lo <= K._x_total_estimated m s p
   <= inject_Z (K.n_days m) * hi)%Q.
Proof.
  intros Hm Hs Hbounds.
  destruct (created_parameters _ _ _ _ Hm) as ((Hn & _) & _).
  rewrite <- (x_weight_total m s) by lia.
  rewrite <- !sumQ_weighted_const. unfold K._x_total_estimated.
  split; apply sumQ_le; intros i Hi;
    pose proof (inject_Z_nonneg _ (x_weight_nonneg _ _ _ _ _ Hm Hs i Hi));
    destruct (Hbounds i Hi); nra.
Qed.

Lemma X11_estimated_total_bounds_witness :
  (inject_Z (K.n_days Examples.half_peak) * 10
   <= K._x_total_estimated Examples.half_peak Examples.witness_on_day2
        Examples.load
   <= inject_Z (K.n_days Examples.half_peak) * 10)%Q.
Proof.
  refine (X11_estimated_total_bounds true true (Examples.two_days (1 # 2))
            Examples.half_peak Examples.witness_on_day2 Examples.load 10 10
            _ _ _).
  - vm_compute; reflexivity.
  - vm_compute; reflexivity.
  - intros i [-> | ->]%elem_of_RangeSet_2; vm_compute; split; discriminate.
Defined.
